(** * CMIP6 controlled vocabularies to JSON schema

    A shallow embedding of [src/cv2schema.py] and [src/export_schema.py]:
    the two scripts that read the CMIP6 controlled-vocabulary (CV) files
    and build a JSON schema for netCDF global attributes.

    Python values that [json.load] can deliver are the type [json]; a
    Python [dict] is an insertion-ordered association list whose keys are
    pairwise distinct; an exception is a value of [exn] carried by
    [result]; the directory of CV files is a function from paths to file
    states. *)

From Stdlib Require Import String Ascii List Bool ZArith Lia.
Import ListNotations.
Open Scope string_scope.

(** ** Python values *)

(** What [json.load] returns: [None], [bool], [int], [float], [str],
    [list] or [dict].  A float is carried through by its literal, the
    scripts never look inside one.  A [str] is carried by the bytes of
    its UTF-8 encoding, one [ascii] a byte; a surrogate code point,
    which [json.load] delivers from an escape without partner such as
    \ud800, by the three bytes that encoding gives it when surrogates
    are let through: ED, then A0 to BF, then 80 to BF. *)
#[warnings="-register-all"]
Inductive json : Type :=
| JNull
| JBool (b : bool)
| JInt (z : Z)
| JFloat (lit : string)
| JStr (s : string)
| JList (l : list json)
| JDict (d : list (string * json)).

(** A [dict] with [str] keys, in insertion order. *)
Definition dict : Type := list (string * json).

(** The bytes from [lo] to [hi]. *)
Definition byte_in (lo hi : N) (c : ascii) : bool :=
  (lo <=? N_of_ascii c)%N && (N_of_ascii c <=? hi)%N.

(** A surrogate starts at [c], the first byte of [String c rest]: no
    other character has ED followed by a byte from A0 to BF. *)
Definition surrogate_at (c : ascii) (rest : string) : bool :=
  Ascii.eqb c "237"%char &&
  match rest with
  | String c' _ => byte_in 160 191 c'
  | EmptyString => false
  end.

Fixpoint has_surrogate (s : string) : bool :=
  match s with
  | EmptyString => false
  | String c s' => surrogate_at c s' || has_surrogate s'
  end.

(** [isinstance(v, str)] and [isinstance(v, dict)]. *)
Definition is_str (v : json) : bool :=
  match v with JStr _ => true | _ => false end.

Definition is_dict (v : json) : bool :=
  match v with JDict _ => true | _ => false end.

(** ** Exceptions *)

(** The exception classes the scripts can meet.  [KeyError] carries the
    missing key, [ValueError] its message, [FileNotFoundError] the path.
    [JSONDecodeError] is what [json.load] raises on text it rejects, and
    [UnicodeDecodeError] and [UnicodeEncodeError] what reading and
    writing text raise on bytes and characters that cannot be decoded
    and encoded (three subclasses of [ValueError], and of neither class
    caught below).  [OSError] stands for the errors of the operating
    system other than [FileNotFoundError]. *)
Inductive exn : Type :=
| FileNotFoundError (path : string)
| JSONDecodeError
| KeyError (key : string)
| ValueError (msg : string)
| TypeError
| AttributeError
| OSError
| UnicodeDecodeError
| UnicodeEncodeError.

Inductive result (A : Type) : Type :=
| Ok (a : A)
| Raise (e : exn).

Arguments Ok {A} a.
Arguments Raise {A} e.

Definition bind {A B : Type} (m : result A) (f : A -> result B) : result B :=
  match m with
  | Ok a => f a
  | Raise e => Raise e
  end.

Notation "x <- m ;; k" := (bind m (fun x => k))
  (at level 61, m at next level, right associativity).

(** [try: m except (FileNotFoundError, KeyError): h]. *)
Definition is_not_found_or_key_error (e : exn) : bool :=
  match e with
  | FileNotFoundError _ | KeyError _ => true
  | _ => false
  end.

Definition try_except {A : Type} (m : result A) (h : result A) : result A :=
  match m with
  | Ok a => Ok a
  | Raise e => if is_not_found_or_key_error e then h else Raise e
  end.

Definition raises {A : Type} (m : result A) : Prop :=
  exists e, m = Raise e.

(** Run [f] over a list from left to right, stopping at the first
    exception: a [for] loop whose body may raise. *)
Fixpoint for_each {S A : Type} (f : S -> A -> result S) (l : list A) (s : S)
  : result S :=
  match l with
  | [] => Ok s
  | a :: l' => s' <- f s a ;; for_each f l' s'
  end.

(** A list comprehension whose element expression may raise. *)
Fixpoint comprehension {A B : Type} (f : A -> result B) (l : list A)
  : result (list B) :=
  match l with
  | [] => Ok []
  | a :: l' => b <- f a ;; bs <- comprehension f l' ;; Ok (b :: bs)
  end.

(** ** Dictionaries *)

(** [d.get(k)]. *)
Fixpoint dict_get (d : dict) (k : string) : option json :=
  match d with
  | [] => None
  | (k', v) :: d' => if String.eqb k' k then Some v else dict_get d' k
  end.

(** [d.get(k, default)]. *)
Definition dict_get_default (d : dict) (k : string) (default : json) : json :=
  match dict_get d k with Some v => v | None => default end.

(** [d[k]]. *)
Definition dict_getitem (d : dict) (k : string) : result json :=
  match dict_get d k with Some v => Ok v | None => Raise (KeyError k) end.

(** [d[k] = v]: an existing key keeps its place, a new one goes last. *)
Fixpoint dict_setitem (d : dict) (k : string) (v : json) : dict :=
  match d with
  | [] => [(k, v)]
  | (k', v') :: d' =>
      if String.eqb k' k then (k', v) :: d' else (k', v') :: dict_setitem d' k v
  end.

(** [del d[k]], the key known to be there or not. *)
Fixpoint dict_remove (d : dict) (k : string) : dict :=
  match d with
  | [] => []
  | (k', v) :: d' =>
      if String.eqb k' k then d' else (k', v) :: dict_remove d' k
  end.

(** [d.pop(k)]: the value and the dictionary without the key. *)
Definition dict_pop (d : dict) (k : string) : result (json * dict) :=
  match dict_get d k with
  | Some v => Ok (v, dict_remove d k)
  | None => Raise (KeyError k)
  end.

(** [d.update(other)]. *)
Definition dict_update (d other : dict) : dict :=
  fold_left (fun acc kv => dict_setitem acc (fst kv) (snd kv)) other d.

Definition dict_keys (d : dict) : list string := map fst d.

(** The invariant of a Python [dict]: no key twice. *)
Definition dict_wf (d : dict) : Prop := NoDup (dict_keys d).

(** [s in l] for a list of strings. *)
Definition str_in (s : string) (l : list string) : bool :=
  existsb (String.eqb s) l.

(** ** The CV directory *)

(** What [open] and [json.load] find at a path, told by what they do
    there: [open] raises [FileNotFoundError] (no file of that name, or
    no directory on the way to it); [open] raises another [OSError] (a
    directory, a file without permission, a file on the way where a
    directory should be, a name the file system refuses); the bytes of
    the file are not text ([UnicodeDecodeError]); [json.load] rejects
    the text ([JSONDecodeError]); [json.load] parses the text to a
    value.  [json.load] takes more than JSON: it reads [NaN],
    [Infinity] and [-Infinity] as floats, and a file with them is a
    [Json] file. *)
Inductive file : Type :=
| Absent
| Unopenable
| Undecodable
| NotJson
| Json (v : json).

Definition files : Type := string -> file.

(** [os.fsencode(path)], the bytes [open] hands to the operating
    system (Linux, file-system encoding utf-8 with the surrogateescape
    handler): the surrogates U+DC80 to U+DCFF, here ED B2 xx and
    ED B3 xx, become the single bytes 80 to FF, and any other surrogate
    cannot be encoded. *)
Fixpoint fsencode (s : string) : option string :=
  match s with
  | EmptyString => Some EmptyString
  | String c s' =>
      if surrogate_at c s' then
        match s' with
        | String c' (String c'' s'') =>
            if byte_in 178 179 c' then
              option_map
                (String (if Ascii.eqb c' "178"%char then c''
                         else ascii_of_N (N_of_ascii c'' + 64)))
                (fsencode s'')
            else None
        | _ => None
        end
      else option_map (String c) (fsencode s')
  end.

(** The names of a path, between its slashes. *)
Fixpoint split_names (s cur : string) : list string :=
  match s with
  | EmptyString => [cur]
  | String c s' =>
      if Ascii.eqb c "/"%char then cur :: split_names s' EmptyString
      else split_names s' (cur ++ String c EmptyString)
  end.

(** The first name of a path that is a name to look up: the empty
    name, [.] and [..] are not. *)
Fixpoint first_name (names : list string) : option string :=
  match names with
  | [] => None
  | n :: names' =>
      if String.eqb n "" || String.eqb n "." || String.eqb n ".."
      then first_name names'
      else Some n
  end.

(** A name of more than 255 bytes, which the file system (Linux)
    refuses when the way to the file comes to it. *)
Definition too_long (name : string) : bool :=
  (255 <? N.of_nat (String.length name))%N.

Fixpoint has_nul (s : string) : bool :=
  match s with
  | EmptyString => false
  | String c s' => Ascii.eqb c Ascii.zero || has_nul s'
  end.

(** The paths [open] refuses whatever the directory holds: Python
    raises [UnicodeEncodeError] on a path that cannot be encoded, then
    [ValueError] on a path with a NUL character, and the operating
    system raises [OSError] on a path of more than 4095 bytes and on a
    path whose first name has more than 255 bytes. *)
Definition path_refused (path : string) : option exn :=
  match fsencode path with
  | None => Some UnicodeEncodeError
  | Some bytes =>
      if has_nul bytes then Some (ValueError "embedded null byte")
      else if (4095 <? N.of_nat (String.length bytes))%N then Some OSError
      else
        match first_name (split_names bytes EmptyString) with
        | Some name => if too_long name then Some OSError else None
        | None => None
        end
  end.

(** A later name of more than 255 bytes is refused when the way comes
    to it, and the way ends before when a directory is missing: no file
    is opened at such a path, and what is raised is
    [FileNotFoundError] or another [OSError]. *)
Definition name_too_long (path : string) : bool :=
  match fsencode path with
  | Some bytes => existsb too_long (split_names bytes EmptyString)
  | None => false
  end.

Definition found (fs : string -> file) (path : string) : file :=
  if name_too_long path then
    match fs path with
    | Absent => Absent
    | _ => Unopenable
    end
  else fs path.

(** [with open(path) as f: return json.load(f)]. *)
Definition load (fs : files) (path : string) : result json :=
  match path_refused path with
  | Some e => Raise e
  | None =>
      match found fs path with
      | Absent => Raise (FileNotFoundError path)
      | Unopenable => Raise OSError
      | Undecodable => Raise UnicodeDecodeError
      | NotJson => Raise JSONDecodeError
      | Json v => Ok v
      end
  end.

(** [v[k]] for a string [k]: only a [dict] can be indexed by a string. *)
Definition getitem (v : json) (k : string) : result json :=
  match v with
  | JDict d => dict_getitem d k
  | _ => Raise TypeError
  end.

(** The characters of a [str], each as a [str] of length one: a
    character is a byte that continues none (a byte outside 80 to BF)
    and the bytes from 80 to BF that follow it. *)
Fixpoint chars (s : string) : list string :=
  match s with
  | EmptyString => []
  | String c s' =>
      let rest := chars s' in
      let continued :=
        match s' with
        | String c' _ => byte_in 128 191 c'
        | EmptyString => false
        end in
      match rest with
      | x :: xs =>
          if continued then String c x :: xs
          else String c EmptyString :: rest
      | [] => [String c EmptyString]
      end
  end.

(** [for x in v]: the elements of a [list], the keys of a [dict], the
    characters of a [str]; nothing else can be iterated. *)
Definition iter (v : json) : result (list json) :=
  match v with
  | JList l => Ok l
  | JDict d => Ok (map JStr (dict_keys d))
  | JStr s => Ok (map JStr (chars s))
  | _ => Raise TypeError
  end.

(** [prefix + x] for a [str] prefix: [x] must be a [str] too. *)
Definition str_add (prefix : string) (x : json) : result string :=
  match x with
  | JStr s => Ok (prefix ++ s)
  | _ => Raise TypeError
  end.

(** [d[k]] for a table from strings to strings. *)
Fixpoint table_get (t : list (string * string)) (k : string) : option string :=
  match t with
  | [] => None
  | (k', v) :: t' => if String.eqb k' k then Some v else table_get t' k
  end.

Definition table_getitem (t : list (string * string)) (k : string)
  : result string :=
  match table_get t k with Some v => Ok v | None => Raise (KeyError k) end.

(** ** src/cv2schema.py *)

Module Cv2schema.

Definition facets : list string :=
  [ "activity_id"; "experiment_id"; "frequency"; "grid_label";
    "institution_id"; "nominal_resolution"; "realm"; "source_id";
    "source_type"; "sub_experiment_id"; "table_id" ].

(** [read_cv]: the path is [f"../CMIP6_{key}.json"]. *)
Definition cv_path (key : string) : string := "../CMIP6_" ++ key ++ ".json".

Definition read_cv (fs : files) (key : string) : result json :=
  load fs (cv_path key).

(** The table [field] of [cv_to_property]: which entry of a sub-mapping
    is the title. *)
Definition field : list (string * string) :=
  [ ("source_id", "label"); ("experiment_id", "description") ].

(** One round of [for key, value in keys.items()]: a [str] value and a
    [dict] value each append an item, any other value appends nothing. *)
Definition append_item (fid : string) (items : list json)
  (entry : string * json) : result (list json) :=
  let '(key, value) := entry in
  match value with
  | JStr _ =>
      Ok (items ++ [JDict [("const", JStr key); ("title", value)]])%list
  | JDict sub =>
      f <- table_getitem field fid ;;
      Ok (items ++ [JDict [("const", JStr key);
                           ("title", dict_get_default sub f (JStr ""))]])%list
  | _ => Ok items
  end.

(** One round of [for fid, keys in cv.items()]. *)
Definition payload_property (enum : bool) (out : dict)
  (entry : string * json) : result dict :=
  let '(fid, keys) := entry in
  match keys with
  | JDict ks =>
      items <- for_each (append_item fid) ks [] ;;
      if enum then
        consts <- comprehension (fun item => getitem item "const") items ;;
        Ok (dict_setitem out fid (JDict [("enum", JList consts)]))
      else
        Ok (dict_setitem out fid (JDict [("oneOf", JList items)]))
  | JList _ => Ok (dict_setitem out fid (JDict [("enum", keys)]))
  | _ => Ok out
  end.

(** [cv_to_property(cv, enum)].  The argument is the caller's object and
    [cv.pop] changes it in place: the first component is that object
    when the call ends (by return or by exception), the second what the
    call returns or raises.  [cv.pop("version_metadata")] on a [list]
    is a [TypeError], on any other value an [AttributeError]. *)
Definition cv_to_property (cv : json) (enum : bool) : json * result dict :=
  match cv with
  | JDict d =>
      match dict_pop d "version_metadata" with
      | Raise e => (cv, Raise e)
      | Ok (_, d') =>
          (JDict d',
           if (1 <? length d')%nat
           then Raise (ValueError "CV has more than one key.")
           else for_each (payload_property enum) d' [])
      end
  | JList _ => (cv, Raise TypeError)
  | _ => (cv, Raise AttributeError)
  end.

Definition integer_fields : list string :=
  [ "initialization_index"; "physics_index"; "realization_index";
    "forcing_index" ].

Definition formats : list (string * string) :=
  [ ("creation_date", "date-time"); ("further_info_url", "uri") ].

(** [prefix + ":" if prefix else ""]. *)
Definition prefix_of (prefix : option string) : string :=
  match prefix with
  | None => ""
  | Some "" => ""
  | Some p => p ++ ":"
  end.

(** The [if]/[elif]/[else] of the loop body. *)
Definition classify (fs : files) (prefix : string) (enum : bool)
  (props : dict) (fid : string) : result dict :=
  if str_in fid integer_fields then
    Ok (dict_setitem props (prefix ++ fid) (JDict [("type", JStr "integer")]))
  else if String.eqb fid "mip_era" then
    Ok (dict_setitem props "mip_era" (JDict [("const", JStr "CMIP6")]))
  else
    try_except
      (cv <- read_cv fs fid ;;
       out <- snd (cv_to_property cv enum) ;;
       Ok (fold_left
             (fun props kv => dict_setitem props (prefix ++ fst kv) (snd kv))
             out props))
      (Ok (dict_setitem props (prefix ++ fid) (JDict [("type", JStr "string")]))).

(** [if fid in formats: props[prefix + fid]["format"] = formats[fid]]. *)
Definition overlay (prefix : string) (props : dict) (fid : string)
  : result dict :=
  match table_get formats fid with
  | None => Ok props
  | Some fmt =>
      frag <- dict_getitem props (prefix ++ fid) ;;
      match frag with
      | JDict f =>
          Ok (dict_setitem props (prefix ++ fid)
                (JDict (dict_setitem f "format" (JStr fmt))))
      | _ => Raise TypeError
      end
  end.

(** The body of [for fid in reqs]. *)
Definition facet_step (fs : files) (prefix : string) (enum : bool)
  (props : dict) (fid : string) : result dict :=
  props' <- classify fs prefix enum props fid ;;
  overlay prefix props' fid.

(** The facet keys [reqs] yields.  The comprehension
    [[prefix + fid for fid in reqs]] runs before the loop and raises
    [TypeError] on an element that is not a [str], so the loop only ever
    sees strings. *)
Definition required_of (reqs : json) : result (list string) :=
  elems <- iter reqs ;;
  comprehension (str_add "") elems.

Definition schema_doc (required : list string) (props : dict) : json :=
  JDict
    [ ("$schema", JStr "http://json-schema.org/draft-07/schema#");
      ("$id", JStr "cmip6-global-attrs-schema.json#");
      ("title", JStr "CMIP6 metadata schema for global attributes");
      ("description", JStr "JSON schema for global attributes metadata of CMIP6 datasets. This schema is automatically generated from the CVs. Manual edits will be overwritten.");
      ("type", JStr "object");
      ("properties", JDict (dict_update [] props));
      ("required", JList (map JStr required)) ].

(** [make_global_attrs_schema(prefix, enum)] over the CV directory [fs]. *)
Definition make_global_attrs_schema (fs : files) (prefix : option string)
  (enum : bool) : result json :=
  let prefix := prefix_of prefix in
  doc <- read_cv fs "required_global_attributes" ;;
  reqs <- getitem doc "required_global_attributes" ;;
  fids <- required_of reqs ;;
  let required := map (fun fid => prefix ++ fid) fids in
  props <- for_each (facet_step fs prefix enum) fids [] ;;
  Ok (schema_doc required props).

(** [create_json_schema()]: build the schema in enum mode without
    prefix, then write it to ../cmip6-global-attrs-schema.json.  The
    schema is built before the file is opened, so a build that raises
    writes nothing.

    [open(path, "w", encoding="utf-8")] raises [OSError] when the
    operating system does not open the path for writing ([writable] is
    [false]: no permission, a directory there, ...), and nothing is
    written; otherwise it empties the file.  [json.dump] with
    [ensure_ascii=False] then writes the text piece by piece, and the
    file raises [UnicodeEncodeError] at the first [str], key or value,
    with a surrogate: the pieces before it stay in the file, a text that
    begins an object and does not end it, which [json.load] rejects.  A
    file written to the end is kept by the value [json.load] reads back
    from it. *)
Definition schema_path : string := "../cmip6-global-attrs-schema.json".

(** Every [str] of the value can be encoded in utf-8. *)
Fixpoint encodable (v : json) : bool :=
  match v with
  | JStr s => negb (has_surrogate s)
  | JList l => forallb encodable l
  | JDict d =>
      forallb (fun kv => negb (has_surrogate (fst kv)) && encodable (snd kv)) d
  | JNull | JBool _ | JInt _ | JFloat _ => true
  end.

Definition write_file (fs : files) (path : string) (f : file) : files :=
  fun p => if String.eqb p path then f else fs p.

Definition write_json (fs : files) (path : string) (v : json) : files :=
  write_file fs path (Json v).

Definition create_json_schema (fs : files) (writable : bool)
  : files * result unit :=
  match make_global_attrs_schema fs None true with
  | Ok schema =>
      if negb writable then (fs, Raise OSError)
      else if encodable schema then (write_json fs schema_path schema, Ok tt)
      else (write_file fs schema_path NotJson, Raise UnicodeEncodeError)
  | Raise e => (fs, Raise e)
  end.

End Cv2schema.

(** ** src/export_schema.py *)

Module ExportSchema.

Definition facets : list string :=
  [ "activity_id"; "experiment_id"; "frequency"; "grid_label";
    "institution_id"; "nominal_resolution"; "realm"; "source_id";
    "source_type"; "sub_experiment_id"; "table_id" ].

(** [read_cv]: [Path(__file__).parent.parent / f"CMIP6_{key}.json"];
    paths are taken relative to that directory. *)
Definition cv_path (key : string) : string := "CMIP6_" ++ key ++ ".json".

Definition read_cv (fs : files) (key : string) : result json :=
  load fs (cv_path key).

Definition field : list (string * string) :=
  [ ("source_id", "label"); ("experiment_id", "description") ].

(** One round of [for key, value in keys.items()]; the title of a
    sub-mapping is [value[field[fid]]]. *)
Definition append_item (fid : string) (items : list json)
  (entry : string * json) : result (list json) :=
  let '(key, value) := entry in
  match value with
  | JStr _ =>
      Ok (items ++ [JDict [("const", JStr key); ("title", value)]])%list
  | JDict sub =>
      f <- table_getitem field fid ;;
      title <- dict_getitem sub f ;;
      Ok (items ++ [JDict [("const", JStr key); ("title", title)]])%list
  | _ => Ok items
  end.

(** One round of [for fid, keys in cv.items()]. *)
Definition payload_property (out : dict) (entry : string * json)
  : result dict :=
  let '(fid, keys) := entry in
  match keys with
  | JDict ks =>
      items <- for_each (append_item fid) ks [] ;;
      Ok (dict_setitem out fid (JDict [("oneOf", JList items)]))
  | JList _ => Ok (dict_setitem out fid (JDict [("enum", keys)]))
  | _ => Ok out
  end.

(** [cv_to_property(cv)]: the caller's object when the call ends, and
    what the call returns or raises. *)
Definition cv_to_property (cv : json) : json * result dict :=
  match cv with
  | JDict d =>
      match dict_pop d "version_metadata" with
      | Raise e => (cv, Raise e)
      | Ok (_, d') =>
          (JDict d',
           if (1 <? length d')%nat
           then Raise (ValueError "CV has more than one key.")
           else for_each payload_property d' [])
      end
  | JList _ => (cv, Raise TypeError)
  | _ => (cv, Raise AttributeError)
  end.

Definition ints : list string :=
  [ "initialization_index"; "physics_index"; "realization_index";
    "forcing_index" ].

Definition formats : list (string * string) :=
  [ ("creation_date", "date-time"); ("further_info_url", "uri") ].

(** The [if]/[elif]/[else] of the loop body, for a facet key that is
    a [str]. *)
Definition classify (fs : files) (props : dict) (fid : string)
  : result dict :=
  if str_in fid facets then
    cv <- read_cv fs fid ;;
    out <- snd (cv_to_property cv) ;;
    Ok (dict_update props out)
  else if str_in fid ints then
    Ok (dict_setitem props fid (JDict [("type", JStr "integer")]))
  else if String.eqb fid "mip_era" then
    Ok (dict_setitem props "mip_era" (JDict [("const", JStr "CMIP6")]))
  else
    Ok (dict_setitem props fid (JDict [("type", JStr "string")])).

(** [if fid in formats: props[fid]["format"] = formats[fid]]. *)
Definition overlay (props : dict) (fid : string) : result dict :=
  match table_get formats fid with
  | None => Ok props
  | Some fmt =>
      frag <- dict_getitem props fid ;;
      match frag with
      | JDict f =>
          Ok (dict_setitem props fid
                (JDict (dict_setitem f "format" (JStr fmt))))
      | _ => Raise TypeError
      end
  end.

Definition facet_step (fs : files) (props : dict) (fid : string)
  : result dict :=
  props' <- classify fs props fid ;;
  overlay props' fid.

Definition schema_doc (reqs : json) (props : dict) : json :=
  JDict
    [ ("$schema", JStr "http://json-schema.org/draft-07/schema#");
      ("title", JStr "CMIP6 metadata schema");
      ("description", JStr "JSON schema for global attributes metadata");
      ("type", JStr "object");
      ("properties", JDict (dict_update [] props));
      ("required", reqs) ].

(** The elements of the required list as strings, when all of them are. *)
Fixpoint str_keys (elems : list json) : option (list string) :=
  match elems with
  | [] => Some []
  | JStr s :: elems' =>
      match str_keys elems' with
      | Some l => Some (s :: l)
      | None => None
      end
  | _ :: _ => None
  end.

(** [make_global_attrs_schema()].  Nothing here forces the elements of
    the required list to be strings, and Python would use a number or
    [None] among them as a key of [props]; dictionaries here have [str]
    keys, so the model covers the required lists that hold strings only
    and answers [None] for the others. *)
Definition make_global_attrs_schema (fs : files) : option (result json) :=
  match (doc <- read_cv fs "required_global_attributes" ;;
         reqs <- getitem doc "required_global_attributes" ;;
         elems <- iter reqs ;;
         Ok (reqs, elems)) with
  | Raise e => Some (Raise e)
  | Ok (reqs, elems) =>
      match str_keys elems with
      | None => None
      | Some fids =>
          Some (props <- for_each (facet_step fs) fids [] ;;
                Ok (schema_doc reqs props))
      end
  end.

(** The body of [for fid in facets] of [make_drs_schema]. *)
Definition drs_step (fs : files) (props : dict) (fid : string)
  : result dict :=
  cv <- read_cv fs fid ;;
  out <- snd (cv_to_property cv) ;;
  Ok (dict_update props out).

Definition drs_properties : dict :=
  [ ("directory_path",
     JDict [("type", JStr "string"); ("pattern", JStr "/CMIP6/")]);
    ("filename",
     JDict [("type", JStr "string"); ("pattern", JStr ".nc")]) ].

Definition drs_doc (props : dict) : json :=
  JDict
    [ ("$schema", JStr "http://json-schema.org/draft-07/schema#");
      ("title", JStr "CMIP6 DRS schema");
      ("description", JStr "JSON schema for directory and file names");
      ("type", JStr "object");
      ("properties", JDict props) ].

(** [make_drs_schema()]: the loop updates [schema["properties"]] in
    place, starting from the two path properties. *)
Definition make_drs_schema (fs : files) : result json :=
  props <- for_each (drs_step fs) facets drs_properties ;;
  Ok (drs_doc props).

End ExportSchema.

(** ** np2py of src/cv2schema.py *)

(** The objects [np2py] tells apart: a [dict], a [list], a [tuple], a
    numpy integer, a numpy floating-point number, and anything else (a
    Python [int], [float], [str], an array, ...), which it returns as it
    is.  Dictionary keys [K], Python floats [F], numpy floats [NF] and
    the other objects [O] are kept abstract; [to_float] is [float(x)] on
    a numpy float.  A sized numpy integer ([int8] to [uint64]) is
    carried by the value of [int(x)].  [np.timedelta64] is a subclass of
    [np.integer] too: [int(x)] returns an [int] for some timedeltas
    (the count, with the generic unit) and raises [TypeError] for the
    others (a timedelta of seconds or of days, NaT); a timedelta is
    carried by [Some] of that [int] in the first case and by [None] in
    the second. *)
Module Np2py.

Section Data.

Variables K O F NF : Type.
Variable to_float : NF -> F.

#[warnings="-register-all"]
Inductive data : Type :=
| DDict (d : list (K * data))
| DList (l : list data)
| DTuple (l : list data)
| DNpInt (z : Z)
| DNpTimedelta (count : option Z)
| DNpFloat (x : NF)
| DInt (z : Z)
| DFloat (x : F)
| DOther (o : O).

(** [np2py(data)]: the comprehensions convert the values in order and
    stop at the first one that raises. *)
Fixpoint np2py (d : data) : result data :=
  match d with
  | DDict kvs =>
      kvs' <- (fix values (kvs : list (K * data)) : result (list (K * data)) :=
                 match kvs with
                 | [] => Ok []
                 | (k, v) :: kvs =>
                     v' <- np2py v ;; kvs' <- values kvs ;; Ok ((k, v') :: kvs')
                 end) kvs ;;
      Ok (DDict kvs')
  | DList l =>
      out <- (fix items (l : list data) : result (list data) :=
                match l with
                | [] => Ok []
                | x :: l => x' <- np2py x ;; l' <- items l ;; Ok (x' :: l')
                end) l ;;
      Ok (DList out)
  | DTuple l =>
      out <- (fix items (l : list data) : result (list data) :=
                match l with
                | [] => Ok []
                | x :: l => x' <- np2py x ;; l' <- items l ;; Ok (x' :: l')
                end) l ;;
      Ok (DTuple out)
  | DNpInt z => Ok (DInt z)
  | DNpTimedelta (Some z) => Ok (DInt z)
  | DNpTimedelta None => Raise TypeError
  | DNpFloat x => Ok (DFloat (to_float x))
  | DInt _ | DFloat _ | DOther _ => Ok d
  end.

(** What the dictionary comprehension does with one item of
    [data.items()]. *)
Definition convert_item (kv : K * data) : result (K * data) :=
  v' <- np2py (snd kv) ;; Ok (fst kv, v').

(** No numpy number among the elements and values, at any depth. *)
Fixpoint numpy_free (d : data) : bool :=
  match d with
  | DDict kvs => forallb (fun kv => numpy_free (snd kv)) kvs
  | DList l => forallb numpy_free l
  | DTuple l => forallb numpy_free l
  | DNpInt _ | DNpTimedelta _ | DNpFloat _ => false
  | DInt _ | DFloat _ | DOther _ => true
  end.

(** No timedelta on which [int] raises, at any depth. *)
Fixpoint convertible (d : data) : bool :=
  match d with
  | DDict kvs => forallb (fun kv => convertible (snd kv)) kvs
  | DList l => forallb convertible l
  | DTuple l => forallb convertible l
  | DNpTimedelta None => false
  | _ => true
  end.

(** The number of objects a value is made of. *)
Fixpoint size (d : data) : nat :=
  match d with
  | DDict kvs => S (list_sum (map (fun kv => size (snd kv)) kvs))
  | DList l => S (list_sum (map size l))
  | DTuple l => S (list_sum (map size l))
  | _ => 1
  end.

End Data.

Arguments DDict {K O F NF} d.
Arguments DList {K O F NF} l.
Arguments DTuple {K O F NF} l.
Arguments DNpInt {K O F NF} z.
Arguments DNpTimedelta {K O F NF} count.
Arguments DNpFloat {K O F NF} x.
Arguments DInt {K O F NF} z.
Arguments DFloat {K O F NF} x.
Arguments DOther {K O F NF} o.
Arguments np2py {K O F NF} to_float d.
Arguments convert_item {K O F NF} to_float kv.
Arguments numpy_free {K O F NF} d.
Arguments convertible {K O F NF} d.
Arguments size {K O F NF} d.

End Np2py.

(** ** Reading a schema *)

(** [schema["properties"].get(k)] and [schema["required"]]. *)
Definition schema_property (schema : json) (k : string) : option json :=
  match schema with
  | JDict d =>
      match dict_get d "properties" with
      | Some (JDict props) => dict_get props k
      | _ => None
      end
  | _ => None
  end.

Definition schema_required (schema : json) : option json :=
  match schema with
  | JDict d => dict_get d "required"
  | _ => None
  end.

(** ** Vocabulary of the properties *)

(** No character of the string is a colon. *)
Fixpoint no_colon (s : string) : bool :=
  match s with
  | EmptyString => true
  | String c s' => negb (Ascii.eqb c ":"%char) && no_colon s'
  end.

(** The entries of a mapping payload that yield an item: those whose
    value is a [str] or a [dict]. *)
Definition yields_item (entry : string * json) : bool :=
  is_str (snd entry) || is_dict (snd entry).

(** A payload loses the entries that yield no item; any other value is
    left as it is. *)
Definition without_other_entries (v : json) : json :=
  match v with
  | JDict ks => JDict (filter yields_item ks)
  | _ => v
  end.

Definition map_values (h : json -> json) (d : dict) : dict :=
  map (fun kv => (fst kv, h (snd kv))) d.

(** The codes of the entries that yield an item, in order. *)
Definition codes (ks : dict) : list json :=
  map (fun entry => JStr (fst entry)) (filter yields_item ks).

(** A CV document with [version_metadata] and, besides it, the single
    payload [fid] whose value is the mapping [entries]. *)
Definition mapping_cv (cv : dict) (fid : string) (entries : dict) : Prop :=
  exists vm,
    dict_pop cv "version_metadata" = Ok (vm, [(fid, JDict entries)]).

(** The facet has a display field, or no entry is a sub-mapping: the
    mapping payloads whose titles can all be found. *)
Definition titled (fid : string) (ks : dict) : bool :=
  match table_get Cv2schema.field fid with
  | Some _ => true
  | None => forallb (fun entry => negb (is_dict (snd entry))) ks
  end.

(** The documents on which [cv_to_property] raises [KeyError]: those
    without [version_metadata], and the mapping-shaped ones with a
    sub-mapping entry whose payload key has no display field in the
    table [field]. *)
Inductive key_error_cv (cv : dict) : Prop :=
| no_version_metadata :
    dict_get cv "version_metadata" = None -> key_error_cv cv
| no_display_field (key : string) (entries : dict) :
    mapping_cv cv key entries ->
    table_get Cv2schema.field key = None ->
    existsb (fun entry => is_dict (snd entry)) entries = true ->
    key_error_cv cv.

Definition string_fragment : json := JDict [("type", JStr "string")].

(** The required-attributes payload of cv2schema.py and the facet keys
    it yields. *)
Definition read_reqs (fs : files) : result json :=
  doc <- Cv2schema.read_cv fs "required_global_attributes" ;;
  getitem doc "required_global_attributes".

Definition facet_keys (fs : files) : result (list string) :=
  reqs <- read_reqs fs ;;
  Cv2schema.required_of reqs.

(** The facets whose CV file the builder of cv2schema.py never opens. *)
Definition unread (fid : string) : bool :=
  str_in fid Cv2schema.integer_fields || String.eqb fid "mip_era".

(** What makes the build fail for good: the required-attributes file is
    missing, holds a text that [json.load] rejects, or parses to a
    document without the key [required_global_attributes]; or the file
    of a required facet that the builder reads (neither an index facet
    nor [mip_era]) holds a text that [json.load] rejects. *)
Inductive fatal (fs : files) : Prop :=
| fatal_reqs_absent :
    fs (Cv2schema.cv_path "required_global_attributes") = Absent -> fatal fs
| fatal_reqs_not_json :
    fs (Cv2schema.cv_path "required_global_attributes") = NotJson -> fatal fs
| fatal_reqs_no_key (doc : json) :
    fs (Cv2schema.cv_path "required_global_attributes") = Json doc ->
    (forall d, doc = JDict d ->
       dict_get d "required_global_attributes" = None) ->
    fatal fs
| fatal_facet_not_json (fids : list string) (fid : string) :
    facet_keys fs = Ok fids ->
    In fid fids ->
    unread fid = false ->
    fs (Cv2schema.cv_path fid) = NotJson ->
    fatal fs.

(** The elements of the required-attributes payload of
    export_schema.py. *)
Definition export_required_elements (fs : files) : result (list json) :=
  doc <- ExportSchema.read_cv fs "required_global_attributes" ;;
  reqs <- getitem doc "required_global_attributes" ;;
  iter reqs.

(** [isinstance(v, list)]. *)
Definition is_list (v : json) : bool :=
  match v with JList _ => true | _ => false end.

(** The title cv2schema.py gives an entry of a mapping payload: the
    value itself when it is a [str], the display field of the facet, or
    the empty string when the sub-mapping has none, when it is a
    [dict]. *)
Definition title_of (fid : string) (value : json) : json :=
  match value with
  | JDict sub =>
      match table_get Cv2schema.field fid with
      | Some f => dict_get_default sub f (JStr "")
      | None => JStr ""
      end
  | _ => value
  end.

Definition item_of (fid : string) (entry : string * json) : json :=
  JDict [("const", JStr (fst entry)); ("title", title_of fid (snd entry))].

(** A CV document with [version_metadata] and, besides it, the single
    payload [fid] whose value is a list. *)
Definition list_cv (cv : dict) (fid : string) (values : list json) : Prop :=
  exists vm,
    dict_pop cv "version_metadata" = Ok (vm, [(fid, JList values)]).

(** The key under which the round of a facet writes in cv2schema.py
    when it writes for the facet itself. *)
Definition written_key (prefix fid : string) : string :=
  if String.eqb fid "mip_era" then "mip_era" else prefix ++ fid.

(** A document shaped as the builder expects it for the facet [fid]:
    no version metadata at all (the [KeyError] is caught), or version
    metadata and the one payload [fid], a mapping or a list. *)
Definition expected_cv (fid : string) (doc : json) : Prop :=
  exists cv,
    doc = JDict cv /\
    (dict_get cv "version_metadata" = None \/
     exists vm payload,
       dict_pop cv "version_metadata" = Ok (vm, [(fid, payload)]) /\
       (is_dict payload || is_list payload) = true).

(** The rounds of cv2schema.py that cannot fail: the facet is an index
    facet or [mip_era]; or the path of its CV file is one [open]
    accepts, and [open] finds no file there, or the path has no name
    too long and the file there holds a document of the expected
    shape. *)
Definition serviceable (fs : files) (fid : string) : Prop :=
  unread fid = true \/
  (path_refused (Cv2schema.cv_path fid) = None /\
   (fs (Cv2schema.cv_path fid) = Absent \/
    (name_too_long (Cv2schema.cv_path fid) = false /\
     exists doc,
       fs (Cv2schema.cv_path fid) = Json doc /\ expected_cv fid doc))).

(** The four keys that say what a property fragment constrains, and the
    fragments the builder makes: one such key, then at most a [format]
    that is a string.  In enum mode [oneOf] is not among them. *)
Definition kind_key (enum : bool) (k : string) : bool :=
  String.eqb k "type" || String.eqb k "const" || String.eqb k "enum"
  || (negb enum && String.eqb k "oneOf").

Definition fragment_ok (enum : bool) (frag : json) : bool :=
  match frag with
  | JDict [(k, _)] => kind_key enum k
  | JDict [(k, _); (k', JStr _)] => kind_key enum k && String.eqb k' "format"
  | _ => false
  end.

(** The invariant of the loop: every key is [mip_era] or carries the
    prefix, and every value is a fragment the builder makes. *)
Definition props_ok (prefix : string) (enum : bool) (props : dict) : Prop :=
  forall k v,
    dict_get props k = Some v ->
    (k = "mip_era" \/ exists x, k = prefix ++ x) /\ fragment_ok enum v = true.

(** The required-attributes payloads the builder of cv2schema.py
    accepts: those that can be iterated and yield strings only. *)
Definition strings_only (reqs : json) : bool :=
  match iter reqs with
  | Ok elems => forallb is_str elems
  | Raise _ => false
  end.

(** The documents [cv_to_property] of export_schema.py turns into one
    fragment keyed by the facet: version metadata and the one payload
    [fid], a list, or a mapping in which every sub-mapping has the
    display field of the facet. *)
Definition export_titled (fid : string) (entries : dict) : bool :=
  forallb
    (fun entry =>
       match snd entry with
       | JDict sub =>
           match table_get ExportSchema.field fid with
           | Some f =>
               match dict_get sub f with Some _ => true | None => false end
           | None => false
           end
       | _ => true
       end)
    entries.

Definition export_expected_cv (fid : string) (doc : json) : Prop :=
  exists cv vm payload,
    doc = JDict cv /\
    dict_pop cv "version_metadata" = Ok (vm, [(fid, payload)]) /\
    match payload with
    | JList _ => True
    | JDict entries => export_titled fid entries = true
    | _ => False
    end.

(** ** Example CV documents and directories *)

(** A directory given by the list of its files: [open] finds no file
    at any other path. *)
Fixpoint directory (l : list (string * json)) : files :=
  fun path =>
    match l with
    | [] => Absent
    | (p, v) :: l' => if String.eqb p path then Json v else directory l' path
    end.

Definition version_metadata_example : json :=
  JDict [("CV_collection_version", JStr "6.2.58.64")].

(** The CV set of the end-to-end example: three required attributes and
    the document of [activity_id]. *)
Definition cvs_example : files :=
  directory
    [ ("../CMIP6_required_global_attributes.json",
       JDict [ ("required_global_attributes",
                JList [JStr "activity_id"; JStr "mip_era";
                       JStr "realization_index"]);
               ("version_metadata", version_metadata_example) ]);
      ("../CMIP6_activity_id.json",
       JDict [ ("activity_id", JDict [("CMIP", JStr "CMIP DECK")]);
               ("version_metadata", version_metadata_example) ]) ].

(** The same, with a text that [json.load] rejects in the file of
    [mip_era], and with such a text in the file of [activity_id]. *)
Definition cvs_bad_mip_era : files :=
  fun path =>
    if String.eqb path (Cv2schema.cv_path "mip_era") then NotJson
    else cvs_example path.

Definition cvs_bad_activity_id : files :=
  fun path =>
    if String.eqb path (Cv2schema.cv_path "activity_id") then NotJson
    else cvs_example path.

(** A mapping-shaped document with an entry that is neither a [str] nor
    a [dict]. *)
Definition cv_activity_id : dict :=
  [ ("activity_id",
     JDict [ ("CMIP", JStr "CMIP DECK");
             ("aliases", JList [JStr "DECK"]);
             ("ScenarioMIP", JStr "Scenario Model Intercomparison Project") ]);
    ("version_metadata", version_metadata_example) ].

(** A document of [source_id] whose only entry has no [label]. *)
Definition cv_source_id_no_label : dict :=
  [ ("source_id",
     JDict [ ("CESM2", JDict [("institution_id", JList [JStr "NCAR"])]) ]);
    ("version_metadata", version_metadata_example) ].

(** A document with two payload keys besides the version metadata, and
    a CV directory whose only required facet has that document. *)
Definition cv_two_payloads : dict :=
  [ ("activity_id", JDict [("CMIP", JStr "CMIP DECK")]);
    ("activity_participation", JList [JStr "CMIP"]);
    ("version_metadata", version_metadata_example) ].

Definition cvs_two_payloads : files :=
  directory
    [ ("../CMIP6_required_global_attributes.json",
       JDict [ ("required_global_attributes", JList [JStr "activity_id"]);
               ("version_metadata", version_metadata_example) ]);
      ("../CMIP6_activity_id.json", JDict cv_two_payloads) ].

(** Two CV sets whose document of [activity_id] holds its payload under
    another name: under [mip_era], and under [realization_index].  In
    both the facet of that name is required and comes first. *)
Definition cvs_mip_era_shadowed : files :=
  directory
    [ ("../CMIP6_required_global_attributes.json",
       JDict [ ("required_global_attributes",
                JList [JStr "mip_era"; JStr "activity_id"]);
               ("version_metadata", version_metadata_example) ]);
      ("../CMIP6_activity_id.json",
       JDict [ ("mip_era", JList [JStr "CMIP5"]);
               ("version_metadata", version_metadata_example) ]) ].

Definition cvs_index_shadowed : files :=
  directory
    [ ("../CMIP6_required_global_attributes.json",
       JDict [ ("required_global_attributes",
                JList [JStr "realization_index"; JStr "activity_id"]);
               ("version_metadata", version_metadata_example) ]);
      ("../CMIP6_activity_id.json",
       JDict [ ("realization_index", JDict [("r1", JStr "first member")]);
               ("version_metadata", version_metadata_example) ]) ].

(** A document without version metadata, one whose entries are
    sub-mappings under a facet without display field, and a CV set
    where two required facets have these documents. *)
Definition cv_no_version_metadata : dict :=
  [ ("frequency", JDict [("mon", JStr "monthly mean samples")]) ].

Definition cv_institution_id : dict :=
  [ ("institution_id",
     JDict [ ("NCAR", JDict [("name", JStr "National Center for Atmospheric Research")]) ]);
    ("version_metadata", version_metadata_example) ].

Definition cvs_key_errors : files :=
  directory
    [ ("../CMIP6_required_global_attributes.json",
       JDict [ ("required_global_attributes",
                JList [JStr "frequency"; JStr "institution_id";
                       JStr "realization_index"]);
               ("version_metadata", version_metadata_example) ]);
      ("../CMIP6_frequency.json", JDict cv_no_version_metadata);
      ("../CMIP6_institution_id.json", JDict cv_institution_id) ].

(** A CV set whose document of [product] has a string as payload, one
    whose file of [realm] holds a JSON array, and one whose required
    list holds a number. *)
Definition cv_product : dict :=
  [ ("product", JStr "model-output");
    ("version_metadata", version_metadata_example) ].

Definition cvs_product : files :=
  directory
    [ ("../CMIP6_required_global_attributes.json",
       JDict [("required_global_attributes", JList [JStr "product"])]);
      ("../CMIP6_product.json", JDict cv_product) ].

Definition cvs_realm_array : files :=
  directory
    [ ("../CMIP6_required_global_attributes.json",
       JDict [("required_global_attributes", JList [JStr "realm"])]);
      ("../CMIP6_realm.json", JList [JStr "atmos"; JStr "ocean"]) ].

Definition cvs_required_number : files :=
  directory
    [ ("../CMIP6_required_global_attributes.json",
       JDict [("required_global_attributes",
               JList [JStr "realm"; JInt 6])]) ].

(** A directory for export_schema.py with a list-shaped document for
    each of the eleven facets. *)
Definition export_list_cv (fid : string) : string * json :=
  ("CMIP6_" ++ fid ++ ".json",
   JDict [ (fid, JList [JStr "a"; JStr "b"]);
           ("version_metadata", version_metadata_example) ]).

Definition export_cvs_lists : files :=
  directory (map export_list_cv ExportSchema.facets).

(** Attributes without numpy numbers, keys and other objects as
    strings, floats as integers. *)
Definition attrs_plain : Np2py.data string string Z Z :=
  Np2py.DDict
    [ ("physics_index", Np2py.DInt 1);
      ("members", Np2py.DTuple [Np2py.DOther "r1i1p1f1"; Np2py.DFloat 2%Z]) ].

(** A document whose payload is a list. *)
Definition cv_nominal_resolution : dict :=
  [ ("nominal_resolution", JList [JStr "100 km"; JStr "250 km"]);
    ("version_metadata", version_metadata_example) ].

(** A CV set that requires [creation_date], which has no CV file. *)
Definition cvs_creation_date : files :=
  directory
    [ ("../CMIP6_required_global_attributes.json",
       JDict [ ("required_global_attributes",
                JList [JStr "activity_id"; JStr "creation_date"]);
               ("version_metadata", version_metadata_example) ]);
      ("../CMIP6_activity_id.json",
       JDict [ ("activity_id", JDict [("CMIP", JStr "CMIP DECK")]);
               ("version_metadata", version_metadata_example) ]) ].

(** A facet key with a NUL character: a, NUL, b. *)
Definition fid_with_nul : string :=
  String "a"%char (String Ascii.zero (String "b"%char EmptyString)).

(** A code list whose key holds the surrogate U+D800, as [json.load]
    delivers it from the escape \ud800, and a directory with it. *)
Definition lone_surrogate : string :=
  String "237"%char (String "160"%char (String "128"%char EmptyString)).

(** A facet key with that surrogate. *)
Definition fid_with_surrogate : string := "a" ++ lone_surrogate.

Definition cvs_surrogate : files :=
  directory
    [ ("../CMIP6_required_global_attributes.json",
       JDict [ ("required_global_attributes", JList [JStr "activity_id"]);
               ("version_metadata", version_metadata_example) ]);
      ("../CMIP6_activity_id.json",
       JDict [ ("activity_id",
                JDict [("CMIP" ++ lone_surrogate, JStr "CMIP DECK")]);
               ("version_metadata", version_metadata_example) ]) ].

(** Attributes with numpy numbers, one of them a timedelta that [int]
    converts, and attributes with a timedelta of seconds, on which
    [int] raises. *)
Definition attrs_numpy : Np2py.data string string Z Z :=
  Np2py.DDict
    [ ("physics_index", Np2py.DNpInt 1);
      ("levels", Np2py.DList [Np2py.DNpFloat 2%Z; Np2py.DNpTimedelta (Some 3%Z)]) ].

Definition attrs_timedelta : Np2py.data string string Z Z :=
  Np2py.DDict
    [ ("physics_index", Np2py.DNpInt 1);
      ("step", Np2py.DTuple [Np2py.DNpTimedelta None; Np2py.DNpInt 2]) ].

(** * Properties *)

(** ** Strings *)

Lemma append_inv_head (p a b : string) : p ++ a = p ++ b -> a = b.
Proof.
  induction p as [|c p IH]; simpl; intros H.
  - exact H.
  - injection H as H. auto.
Qed.

Lemma append_length (a b : string) :
  String.length (a ++ b) = String.length a + String.length b.
Proof.
  induction a as [|c a IH]; simpl; [reflexivity | now rewrite IH].
Qed.

Lemma append_inv_tail (a b s : string) : a ++ s = b ++ s -> a = b.
Proof.
  revert b. induction a as [|c a IH]; intros [|c' b] H; simpl in H.
  - reflexivity.
  - apply (f_equal String.length) in H. simpl in H.
    rewrite append_length in H. lia.
  - apply (f_equal String.length) in H. simpl in H.
    rewrite append_length in H. lia.
  - injection H as -> H. f_equal. auto.
Qed.

Lemma no_colon_append (a b : string) :
  no_colon (a ++ b) = no_colon a && no_colon b.
Proof.
  induction a as [|c a IH]; simpl; [reflexivity|].
  rewrite IH. now rewrite andb_assoc.
Qed.

Lemma str_in_In (s : string) (l : list string) :
  str_in s l = true <-> In s l.
Proof.
  unfold str_in. rewrite existsb_exists. split.
  - intros [x [Hin Heq]]. apply String.eqb_eq in Heq. now subst.
  - intros Hin. exists s. split; [exact Hin | apply String.eqb_refl].
Qed.

(** ** Exceptions and loops *)

Lemma bind_ok {A B : Type} (m : result A) (f : A -> result B) (b : B) :
  (x <- m ;; f x) = Ok b -> exists a, m = Ok a /\ f a = Ok b.
Proof.
  destruct m as [a|e]; simpl; intros H; [eauto | discriminate].
Qed.

Lemma bind_raises {A B : Type} (m : result A) (f : A -> result B) :
  raises m -> raises (x <- m ;; f x).
Proof.
  intros [e ->]. now exists e.
Qed.

Section Loops.

Context {S A : Type}.
Variable f : S -> A -> result S.

(** A property kept by every round is kept by the loop. *)
Lemma for_each_invariant (P : S -> Prop) (l : list A) :
  (forall s a s', In a l -> P s -> f s a = Ok s' -> P s') ->
  forall s s', P s -> for_each f l s = Ok s' -> P s'.
Proof.
  induction l as [|a l IH]; simpl; intros Hstep s s' Hs Hrun.
  - injection Hrun as <-. exact Hs.
  - apply bind_ok in Hrun as [s1 [H1 H2]].
    apply (IH (fun s a s' Hin => Hstep s a s' (or_intror Hin)) s1 s');
      [|exact H2].
    apply (Hstep s a s1); auto.
Qed.

(** A round that raises from every state makes the loop raise. *)
Lemma for_each_raises (l : list A) (a : A) :
  In a l -> (forall s, raises (f s a)) -> forall s, raises (for_each f l s).
Proof.
  intros Hin Hraise. induction l as [|b l IH]; [destruct Hin|].
  intros s. simpl. destruct Hin as [-> | Hin].
  - apply bind_raises, Hraise.
  - destruct (f s b) as [s1|e]; simpl; [apply IH, Hin | now exists e].
Qed.

(** A loop raises what one of its rounds raises. *)
Lemma for_each_raise_origin (l : list A) (e : exn) :
  forall s, for_each f l s = Raise e ->
            exists a s', In a l /\ f s' a = Raise e.
Proof.
  induction l as [|b l IH]; simpl; intros s Hrun; [discriminate|].
  destruct (f s b) as [s1|e'] eqn:Hstep; simpl in Hrun.
  - destruct (IH s1 Hrun) as [a [s' [Hin Ha]]]. exists a, s'. auto.
  - injection Hrun as ->. exists b, s. auto.
Qed.

(** Two kinds of rounds with respect to an observation [obs] of the
    state: those that establish [Q] and those that do not change
    [obs].  If every round is of one kind and one round establishes
    [Q], the state after the loop satisfies [Q]. *)
Lemma for_each_last_writer {O : Type} (obs : S -> O) (Q : O -> Prop)
  (inv : S -> Prop) (l : list A) (a : A) :
  In a l ->
  (forall s b s', In b l -> inv s -> f s b = Ok s' -> inv s') ->
  (forall s s', inv s -> f s a = Ok s' -> Q (obs s')) ->
  (forall s b s', In b l -> b <> a -> inv s ->
     f s b = Ok s' -> obs s' = obs s) ->
  (forall b, In b l -> {b = a} + {b <> a}) ->
  forall s s', inv s -> for_each f l s = Ok s' -> Q (obs s').
Proof.
  intros Hin Hinv Hset Hkeep Hdec.
  assert (Hgen : forall l', incl l' l -> forall s s', inv s ->
            for_each f l' s = Ok s' ->
            (In a l' \/ Q (obs s)) -> Q (obs s')).
  { induction l' as [|b l' IH]; simpl; intros Hincl s s' Hs Hrun Hcase.
    - injection Hrun as <-. destruct Hcase as [[]|HQ]; exact HQ.
    - apply bind_ok in Hrun as [s1 [H1 H2]].
      assert (Hb : In b l) by (apply Hincl; now left).
      assert (Hs1 : inv s1) by (apply (Hinv s b s1); auto).
      apply (IH (fun x Hx => Hincl x (or_intror Hx)) s1 s' Hs1 H2).
      destruct (Hdec b Hb) as [-> | Hne].
      + right. apply (Hset s s1); auto.
      + destruct Hcase as [[Heq | Hin'] | HQ].
        * congruence.
        * now left.
        * right. rewrite (Hkeep s b s1); auto. }
  intros s s' Hs Hrun. apply (Hgen l (incl_refl l) s s' Hs Hrun). now left.
Qed.

End Loops.

(** ** Dictionaries *)

Lemma dict_get_setitem_eq (d : dict) (k : string) (v : json) :
  dict_get (dict_setitem d k v) k = Some v.
Proof.
  induction d as [|[k' v'] d IH]; simpl.
  - now rewrite String.eqb_refl.
  - destruct (String.eqb k' k) eqn:E; simpl; rewrite E; auto.
Qed.

Lemma dict_get_setitem_neq (d : dict) (k k' : string) (v : json) :
  k' <> k -> dict_get (dict_setitem d k v) k' = dict_get d k'.
Proof.
  intros Hne. induction d as [|[k0 v0] d IH]; simpl.
  - destruct (String.eqb k k') eqn:E; [|reflexivity].
    apply String.eqb_eq in E. congruence.
  - destruct (String.eqb k0 k) eqn:E; simpl.
    + apply String.eqb_eq in E. subst k0.
      destruct (String.eqb k k') eqn:E'; [|reflexivity].
      apply String.eqb_eq in E'. congruence.
    + now rewrite IH.
Qed.

Lemma dict_get_None (d : dict) (k : string) :
  dict_get d k = None <-> ~ In k (dict_keys d).
Proof.
  induction d as [|[k' v] d IH]; simpl.
  - tauto.
  - destruct (String.eqb k' k) eqn:E.
    + apply String.eqb_eq in E. subst. split; [discriminate | tauto].
    + apply String.eqb_neq in E. rewrite IH. tauto.
Qed.

Lemma keys_setitem (d : dict) (k x : string) (v : json) :
  In x (dict_keys (dict_setitem d k v)) <-> x = k \/ In x (dict_keys d).
Proof.
  induction d as [|[k' v'] d IH]; simpl.
  - intuition.
  - destruct (String.eqb k' k) eqn:E; simpl.
    + apply String.eqb_eq in E. subst. intuition.
    + rewrite IH. intuition.
Qed.

Lemma dict_setitem_fresh (d : dict) (k : string) (v : json) :
  ~ In k (dict_keys d) -> dict_setitem d k v = (d ++ [(k, v)])%list.
Proof.
  induction d as [|[k' v'] d IH]; simpl; intros Hk; [reflexivity|].
  destruct (String.eqb k' k) eqn:E.
  - apply String.eqb_eq in E. tauto.
  - rewrite IH; tauto.
Qed.

Lemma dict_setitem_wf (d : dict) (k : string) (v : json) :
  dict_wf d -> dict_wf (dict_setitem d k v).
Proof.
  unfold dict_wf. induction d as [|[k' v'] d IH]; simpl; intros Hwf.
  - constructor; [tauto | constructor].
  - inversion Hwf as [|? ? Hnotin Hrest]; subst.
    destruct (String.eqb k' k) eqn:E; simpl.
    + now constructor.
    + constructor; [|auto].
      rewrite keys_setitem. apply String.eqb_neq in E.
      intros [-> | Hin]; tauto.
Qed.

(** Updating the empty dictionary with a dictionary copies it. *)
Lemma dict_update_nil (d : dict) : dict_wf d -> dict_update [] d = d.
Proof.
  unfold dict_update, dict_wf.
  assert (H : forall d acc : dict, NoDup (dict_keys (acc ++ d)%list) ->
            fold_left (fun acc kv => dict_setitem acc (fst kv) (snd kv)) d acc
            = (acc ++ d)%list).
  { clear d. induction d as [|[k v] d IH]; intros acc Hnd; simpl.
    - now rewrite app_nil_r.
    - unfold dict_keys in Hnd. rewrite map_app in Hnd. simpl in Hnd.
      pose proof (NoDup_remove_2 _ _ _ Hnd) as Hk.
      rewrite dict_setitem_fresh.
      + rewrite IH; rewrite <- app_assoc; simpl; [reflexivity|].
        unfold dict_keys. rewrite map_app. exact Hnd.
      + intros Hin. apply Hk. apply in_or_app. now left. }
  intros Hwf. now apply (H d []).
Qed.

Lemma dict_get_remove_neq (d : dict) (k k' : string) :
  k' <> k -> dict_get (dict_remove d k) k' = dict_get d k'.
Proof.
  intros Hne. induction d as [|[k0 v0] d IH]; simpl; [reflexivity|].
  destruct (String.eqb k0 k) eqn:E; simpl.
  - apply String.eqb_eq in E. subst k0.
    destruct (String.eqb k k') eqn:E'; [|reflexivity].
    apply String.eqb_eq in E'. congruence.
  - now rewrite IH.
Qed.

Lemma keys_remove_incl (d : dict) (k x : string) :
  In x (dict_keys (dict_remove d k)) -> In x (dict_keys d).
Proof.
  induction d as [|[k' v] d IH]; simpl; [tauto|].
  destruct (String.eqb k' k); simpl; tauto.
Qed.

(** On a dictionary, removing a key leaves exactly the other entries,
    in their order. *)
Lemma dict_remove_filter (d : dict) (k : string) :
  dict_wf d ->
  dict_remove d k = filter (fun kv => negb (String.eqb (fst kv) k)) d.
Proof.
  unfold dict_wf. induction d as [|[k' v] d IH]; simpl; intros Hwf.
  - reflexivity.
  - inversion Hwf as [|? ? Hnotin Hrest]; subst.
    destruct (String.eqb k' k) eqn:E; simpl.
    + apply String.eqb_eq in E. subst k'.
      symmetry. apply forallb_filter_id. apply forallb_forall.
      intros [k1 v1] Hin. simpl. apply negb_true_iff, String.eqb_neq.
      intros ->. apply Hnotin. now apply (in_map fst) in Hin.
    + now rewrite IH.
Qed.

Lemma dict_remove_absent (d : dict) (k : string) :
  dict_get d k = None -> dict_remove d k = d.
Proof.
  induction d as [|[k' v] d IH]; simpl; [reflexivity|].
  destruct (String.eqb k' k); [discriminate|].
  intros H. now rewrite IH.
Qed.

Lemma dict_get_remove_eq (d : dict) (k : string) :
  dict_wf d -> dict_get (dict_remove d k) k = None.
Proof.
  intros Hwf. rewrite dict_remove_filter by exact Hwf.
  apply dict_get_None. unfold dict_keys. rewrite in_map_iff.
  intros [[k' v] [Heq Hin]]. simpl in Heq. subst k'.
  apply filter_In in Hin as [_ Hneg]. simpl in Hneg.
  now rewrite String.eqb_refl in Hneg.
Qed.

(** ** Items of a mapping payload *)

Lemma dict_get_map_values (h : json -> json) (d : dict) (k : string) :
  dict_get (map_values h d) k = option_map h (dict_get d k).
Proof.
  induction d as [|[k' v] d IH]; simpl; [reflexivity|].
  destruct (String.eqb k' k); auto.
Qed.

Lemma dict_remove_map_values (h : json -> json) (d : dict) (k : string) :
  dict_remove (map_values h d) k = map_values h (dict_remove d k).
Proof.
  induction d as [|[k' v] d IH]; simpl; [reflexivity|].
  destruct (String.eqb k' k); simpl; [reflexivity | now rewrite IH].
Qed.

Lemma for_each_map {S A B : Type} (f : S -> B -> result S) (g : A -> B)
  (l : list A) (s : S) :
  for_each f (map g l) s = for_each (fun s a => f s (g a)) l s.
Proof.
  revert s. induction l as [|a l IH]; intros s; simpl; [reflexivity|].
  destruct (f s (g a)); simpl; auto.
Qed.

Lemma for_each_ext {S A : Type} (f g : S -> A -> result S) (l : list A) :
  (forall s a, In a l -> f s a = g s a) ->
  forall s, for_each f l s = for_each g l s.
Proof.
  induction l as [|a l IH]; intros H s; simpl; [reflexivity|].
  rewrite (H s a (or_introl eq_refl)).
  destruct (g s a); simpl; [|reflexivity].
  apply IH. intros s' b Hb. apply H. now right.
Qed.

(** Rounds that leave the state alone can be dropped from a loop. *)
Lemma for_each_filter {S A : Type} (f : S -> A -> result S)
  (keep : A -> bool) (l : list A) :
  (forall s a, keep a = false -> f s a = Ok s) ->
  forall s, for_each f (filter keep l) s = for_each f l s.
Proof.
  intros Hskip. induction l as [|a l IH]; intros s; simpl; [reflexivity|].
  destruct (keep a) eqn:E; simpl.
  - destruct (f s a); simpl; auto.
  - rewrite (Hskip s a E). simpl. apply IH.
Qed.

Lemma comprehension_snoc {A B : Type} (f : A -> result B) (l : list A)
  (a : A) (bs : list B) (b : B) :
  comprehension f l = Ok bs -> f a = Ok b ->
  comprehension f (l ++ [a]) = Ok (bs ++ [b])%list.
Proof.
  revert bs. induction l as [|x l IH]; simpl; intros bs Hl Ha.
  - injection Hl as <-. now rewrite Ha.
  - apply bind_ok in Hl as [y [Hy Hl]].
    apply bind_ok in Hl as [ys [Hys Hl]]. injection Hl as <-.
    rewrite Hy. simpl. now rewrite (IH ys Hys Ha).
Qed.

Module Cv2schemaFacts.
Import Cv2schema.

(** An entry whose value is neither a [str] nor a [dict] leaves the
    items as they are. *)
Lemma append_item_other (fid : string) (items : list json)
  (entry : string * json) :
  yields_item entry = false -> append_item fid items entry = Ok items.
Proof.
  destruct entry as [key value]. unfold yields_item. simpl.
  destruct value; simpl; intros H; try reflexivity; discriminate.
Qed.

Lemma payload_property_without_other (enum : bool) (out : dict)
  (fid : string) (v : json) :
  payload_property enum out (fid, without_other_entries v)
  = payload_property enum out (fid, v).
Proof.
  destruct v; simpl; try reflexivity.
  rewrite (for_each_filter (append_item fid) yields_item d); [reflexivity|].
  intros s a. apply append_item_other.
Qed.

(** Every item built by the loop is a mapping with a [const], and the
    [const] values are the codes of the entries that yield an item. *)
Lemma items_consts (fid : string) (ks : dict) :
  forall acc items cs,
    for_each (append_item fid) ks acc = Ok items ->
    comprehension (fun item => getitem item "const") acc = Ok cs ->
    comprehension (fun item => getitem item "const") items
    = Ok (cs ++ codes ks)%list.
Proof.
  unfold codes.
  induction ks as [|[key value] ks IH]; simpl; intros acc items cs Hrun Hacc.
  - injection Hrun as <-. now rewrite app_nil_r.
  - apply bind_ok in Hrun as [acc' [Hstep Hrun]].
    unfold yields_item at 1. simpl fst. simpl snd.
    destruct value; simpl in Hstep |- *;
      try (injection Hstep as <-; now apply (IH acc items cs)).
    + injection Hstep as <-.
      rewrite (IH _ items (cs ++ [JStr key])%list Hrun).
      * now rewrite <- app_assoc.
      * now apply comprehension_snoc.
    + apply bind_ok in Hstep as [f [_ Hstep]]. injection Hstep as <-.
      rewrite (IH _ items (cs ++ [JStr key])%list Hrun).
      * now rewrite <- app_assoc.
      * now apply comprehension_snoc.
Qed.

Lemma items_total (fid : string) (ks : dict) :
  titled fid ks = true ->
  forall acc, exists items, for_each (append_item fid) ks acc = Ok items.
Proof.
  unfold titled. intros Ht.
  induction ks as [|[key value] ks IH]; intros acc; simpl.
  - now exists acc.
  - assert (Hks : match table_get field fid with
                  | Some _ => true
                  | None => forallb (fun e => negb (is_dict (snd e))) ks
                  end = true).
    { destruct (table_get field fid); [reflexivity|].
      simpl in Ht. now apply andb_true_iff in Ht as [_ Ht]. }
    specialize (IH Hks).
    destruct value; simpl; try apply IH.
    unfold table_getitem.
    destruct (table_get field fid) eqn:E; simpl; [apply IH|].
    simpl in Ht. discriminate.
Qed.

End Cv2schemaFacts.

Lemma cv_to_property_map_values (h : json -> json) (cv : dict) (enum : bool) :
  (forall out fid v,
     Cv2schema.payload_property enum out (fid, h v)
     = Cv2schema.payload_property enum out (fid, v)) ->
  snd (Cv2schema.cv_to_property (JDict (map_values h cv)) enum)
  = snd (Cv2schema.cv_to_property (JDict cv) enum).
Proof.
  intros Hh. unfold Cv2schema.cv_to_property, dict_pop.
  rewrite dict_get_map_values.
  destruct (dict_get cv "version_metadata") as [vm|]; simpl; [|reflexivity].
  rewrite dict_remove_map_values. unfold map_values at 1.
  rewrite length_map.
  destruct (1 <? length (dict_remove cv "version_metadata"))%nat;
    [reflexivity|].
  unfold map_values. rewrite for_each_map.
  apply for_each_ext. intros s [k v] _. apply Hh.
Qed.

(** C10.  In a mapping payload, an entry whose value is neither a [str]
    nor a [dict] is skipped by [cv_to_property]: whatever the rest of the
    document is, the call returns (or raises) exactly what it does on the
    document without that entry, in oneOf mode and in enum mode alike.
    The entry adds no item, no enum value and no error. *)
Theorem other_entries_are_omitted (enum : bool) (c1 c2 : dict) (fid : string)
  (pre post : dict) (key : string) (value : json) :
  is_str value = false ->
  is_dict value = false ->
  snd (Cv2schema.cv_to_property
         (JDict (c1 ++ (fid, JDict (pre ++ (key, value) :: post)) :: c2)) enum)
  = snd (Cv2schema.cv_to_property
           (JDict (c1 ++ (fid, JDict (pre ++ post)) :: c2)) enum).
Proof.
  intros Hstr Hdict.
  rewrite <- (cv_to_property_map_values without_other_entries
                (c1 ++ (fid, JDict (pre ++ (key, value) :: post)) :: c2)%list
                enum)
    by (intros; apply Cv2schemaFacts.payload_property_without_other).
  rewrite <- (cv_to_property_map_values without_other_entries
                (c1 ++ (fid, JDict (pre ++ post)) :: c2)%list enum)
    by (intros; apply Cv2schemaFacts.payload_property_without_other).
  assert (Hskip : yields_item (key, value) = false).
  { unfold yields_item. simpl. now rewrite Hstr, Hdict. }
  f_equal. f_equal. f_equal.
  unfold map_values. rewrite !map_app. cbn [map fst snd].
  cbn [without_other_entries]. rewrite !filter_app. cbn [filter].
  now rewrite Hskip.
Qed.

Lemma other_entries_are_omitted_witness :
  is_str (JList [JStr "DECK"]) = false /\
  is_dict (JList [JStr "DECK"]) = false /\
  snd (Cv2schema.cv_to_property (JDict cv_activity_id) false)
  = Ok [ ("activity_id",
          JDict [ ("oneOf",
                   JList [ JDict [ ("const", JStr "CMIP");
                                   ("title", JStr "CMIP DECK") ];
                           JDict [ ("const", JStr "ScenarioMIP");
                                   ("title", JStr "Scenario Model Intercomparison Project") ] ]) ]) ].
Proof.
  split; [reflexivity | split; [reflexivity|]].
  etransitivity.
  - exact (other_entries_are_omitted false []
             [("version_metadata", version_metadata_example)] "activity_id"
             [("CMIP", JStr "CMIP DECK")]
             [("ScenarioMIP", JStr "Scenario Model Intercomparison Project")]
             "aliases" (JList [JStr "DECK"]) eq_refl eq_refl).
  - reflexivity.
Defined.

(** C4.  For a well-formed mapping-shaped CV (version metadata, one
    payload whose value is a mapping, and a display field for the facet
    whenever an entry is a sub-mapping) [cv_to_property] returns in both
    modes, and the values of the [enum] fragment of enum mode are the
    [const] values of the [oneOf] items of oneOf mode, element for
    element: the codes of the entries whose value is a [str] or a
    [dict], in the order of the payload. *)
Theorem enum_values_are_oneOf_consts (cv : dict) (fid : string)
  (entries : dict) :
  mapping_cv cv fid entries ->
  titled fid entries = true ->
  exists items values,
    snd (Cv2schema.cv_to_property (JDict cv) false)
    = Ok [(fid, JDict [("oneOf", JList items)])] /\
    snd (Cv2schema.cv_to_property (JDict cv) true)
    = Ok [(fid, JDict [("enum", JList values)])] /\
    comprehension (fun item => getitem item "const") items = Ok values /\
    values = codes entries.
Proof.
  intros [vm Hpop] Ht.
  destruct (Cv2schemaFacts.items_total fid entries Ht []) as [items Hitems].
  pose proof (Cv2schemaFacts.items_consts fid entries [] items [] Hitems
                eq_refl) as Hconsts.
  simpl in Hconsts.
  exists items, (codes entries).
  unfold Cv2schema.cv_to_property. rewrite Hpop. simpl.
  rewrite Hitems. simpl. rewrite Hconsts. simpl. auto.
Qed.

Lemma enum_values_are_oneOf_consts_witness :
  exists items values,
    snd (Cv2schema.cv_to_property (JDict cv_activity_id) false)
    = Ok [("activity_id", JDict [("oneOf", JList items)])] /\
    snd (Cv2schema.cv_to_property (JDict cv_activity_id) true)
    = Ok [("activity_id", JDict [("enum", JList values)])] /\
    comprehension (fun item => getitem item "const") items = Ok values /\
    values = [JStr "CMIP"; JStr "ScenarioMIP"].
Proof.
  apply (enum_values_are_oneOf_consts cv_activity_id "activity_id"
           [ ("CMIP", JStr "CMIP DECK");
             ("aliases", JList [JStr "DECK"]);
             ("ScenarioMIP", JStr "Scenario Model Intercomparison Project") ]).
  - exists version_metadata_example. reflexivity.
  - reflexivity.
Defined.

(** C5.  The two scripts differ on a sub-mapping that lacks the display
    field of its facet: there is a mapping-shaped CV, with an entry
    whose sub-mapping has no such field, on which [cv_to_property] of
    cv2schema.py returns an item with the empty title while
    [cv_to_property] of export_schema.py raises [KeyError]. *)
Theorem display_field_policies_differ :
  exists (cv : dict) (fid key f : string) (sub : dict),
    mapping_cv cv fid [(key, JDict sub)] /\
    table_get Cv2schema.field fid = Some f /\
    table_get ExportSchema.field fid = Some f /\
    dict_get sub f = None /\
    snd (Cv2schema.cv_to_property (JDict cv) false)
    = Ok [(fid, JDict [("oneOf",
                        JList [JDict [("const", JStr key);
                                      ("title", JStr "")]])])] /\
    snd (ExportSchema.cv_to_property (JDict cv)) = Raise (KeyError f).
Proof.
  exists cv_source_id_no_label, "source_id", "CESM2", "label",
    [("institution_id", JList [JStr "NCAR"])].
  repeat split.
  exists version_metadata_example. reflexivity.
Qed.

(** C9.  [cv_to_property] changes the caller's dictionary in place: when
    the call ends, by return or by exception, the dictionary holds
    exactly its former entries other than [version_metadata], each with
    its value and in the former order.  This holds for both scripts. *)
Theorem cv_to_property_pops_version_metadata (cv : dict) (enum : bool) :
  dict_wf cv ->
  let rest :=
    filter (fun kv => negb (String.eqb (fst kv) "version_metadata")) cv in
  fst (Cv2schema.cv_to_property (JDict cv) enum) = JDict rest /\
  fst (ExportSchema.cv_to_property (JDict cv)) = JDict rest /\
  dict_get rest "version_metadata" = None /\
  forall k, k <> "version_metadata" -> dict_get rest k = dict_get cv k.
Proof.
  intros Hwf rest.
  assert (Hrest : rest = dict_remove cv "version_metadata").
  { symmetry. now apply dict_remove_filter. }
  rewrite Hrest.
  unfold Cv2schema.cv_to_property, ExportSchema.cv_to_property, dict_pop.
  repeat split.
  - destruct (dict_get cv "version_metadata") eqn:E; simpl; [reflexivity|].
    now rewrite dict_remove_absent.
  - destruct (dict_get cv "version_metadata") eqn:E; simpl; [reflexivity|].
    now rewrite dict_remove_absent.
  - now apply dict_get_remove_eq.
  - intros k Hk. now apply dict_get_remove_neq.
Qed.

Lemma cv_to_property_pops_version_metadata_witness :
  fst (Cv2schema.cv_to_property (JDict cv_activity_id) true)
  = JDict [ ("activity_id",
             JDict [ ("CMIP", JStr "CMIP DECK");
                     ("aliases", JList [JStr "DECK"]);
                     ("ScenarioMIP", JStr "Scenario Model Intercomparison Project") ]) ].
Proof.
  assert (Hwf : dict_wf cv_activity_id).
  { unfold dict_wf, cv_activity_id. simpl.
    repeat constructor; simpl; intuition discriminate. }
  exact (proj1 (cv_to_property_pops_version_metadata cv_activity_id true Hwf)).
Defined.

(** ** The schema builder of cv2schema.py *)

Module BuilderFacts.
Import Cv2schema.

Lemma make_global_attrs_schema_eq (fs : files) (prefix : option string)
  (enum : bool) :
  make_global_attrs_schema fs prefix enum
  = (fids <- facet_keys fs ;;
     props <- for_each (facet_step fs (prefix_of prefix) enum) fids [] ;;
     Ok (schema_doc (map (fun fid => prefix_of prefix ++ fid) fids) props)).
Proof.
  unfold make_global_attrs_schema, facet_keys, read_reqs.
  destruct (read_cv fs "required_global_attributes") as [doc|e]; simpl;
    [|reflexivity].
  destruct (getitem doc "required_global_attributes"); reflexivity.
Qed.

Lemma cv_path_inj (a b : string) : cv_path a = cv_path b -> a = b.
Proof.
  unfold cv_path. intros H.
  apply append_inv_head in H. now apply append_inv_tail in H.
Qed.

(** *** Reading a file *)

Lemma path_refused_not_caught (path : string) (e : exn) :
  path_refused path = Some e -> is_not_found_or_key_error e = false.
Proof.
  unfold path_refused.
  destruct (fsencode path) as [bytes|]; [|now intros [= <-]].
  destruct (has_nul bytes); [now intros [= <-]|].
  destruct (4095 <? N.of_nat (String.length bytes))%N; [now intros [= <-]|].
  destruct (first_name (split_names bytes "")) as [name|]; [|discriminate].
  destruct (too_long name); [now intros [= <-] | discriminate].
Qed.

Lemma found_absent (fs : files) (path : string) :
  fs path = Absent -> found fs path = Absent.
Proof. unfold found. intros ->. now destruct (name_too_long path). Qed.

Lemma found_short (fs : files) (path : string) :
  name_too_long path = false -> found fs path = fs path.
Proof. unfold found. now intros ->. Qed.

Lemma found_same (fs fs' : files) (path : string) :
  fs' path = fs path -> found fs' path = found fs path.
Proof. unfold found. now intros ->. Qed.

Lemma required_path_short :
  name_too_long (cv_path "required_global_attributes") = false.
Proof. reflexivity. Qed.

Lemma required_path_accepted :
  path_refused (cv_path "required_global_attributes") = None.
Proof. reflexivity. Qed.

(** A file that is there with a text [json.load] rejects makes the
    read raise an exception the handler of the builder does not catch. *)
Lemma read_cv_not_json (fs : files) (key : string) :
  fs (cv_path key) = NotJson ->
  exists e, read_cv fs key = Raise e /\ is_not_found_or_key_error e = false.
Proof.
  intros Hnot. unfold read_cv, load, found.
  destruct (path_refused (cv_path key)) as [e|] eqn:E.
  - exists e. split; [reflexivity|]. now apply (path_refused_not_caught _ _ E).
  - unfold found. rewrite Hnot.
    destruct (name_too_long (cv_path key));
      [now exists OSError | now exists JSONDecodeError].
Qed.

(** Two directories that hold the same at the path of a key read the
    same there. *)
Lemma read_cv_same (fs fs' : files) (key : string) :
  fs' (cv_path key) = fs (cv_path key) -> read_cv fs' key = read_cv fs key.
Proof. unfold read_cv, load, found. now intros ->. Qed.

(** *** Which keys a round writes *)

Lemma prefix_of_cases (prefix : option string) :
  prefix_of prefix = "" \/ exists p, prefix_of prefix = p ++ ":".
Proof.
  destruct prefix as [[|c p]|]; simpl; auto.
  right. now exists (String c p).
Qed.

Lemma prefixed_neq_mip_era (prefix : option string) (x : string) :
  x <> "mip_era" -> prefix_of prefix ++ x <> "mip_era".
Proof.
  intros Hx. destruct (prefix_of_cases prefix) as [-> | [p ->]].
  - exact Hx.
  - intros H. apply (f_equal no_colon) in H.
    rewrite !no_colon_append in H. simpl in H.
    rewrite andb_false_r in H. discriminate.
Qed.

Lemma index_cases (fid : string) :
  str_in fid integer_fields = true ->
  fid = "initialization_index" \/ fid = "physics_index" \/
  fid = "realization_index" \/ fid = "forcing_index".
Proof.
  intros H. apply str_in_In in H. simpl in H. intuition.
Qed.

Lemma index_not_special (fid : string) :
  str_in fid integer_fields = true ->
  fid <> "mip_era" /\ table_get formats fid = None.
Proof.
  intros H.
  destruct (index_cases fid H) as [-> | [-> | [-> | ->]]];
    split; (discriminate || reflexivity).
Qed.

Lemma payload_property_keys (enum : bool) (out out' : dict)
  (entry : string * json) (x : string) :
  payload_property enum out entry = Ok out' ->
  In x (dict_keys out') -> x = fst entry \/ In x (dict_keys out).
Proof.
  destruct entry as [fid v]. unfold payload_property.
  destruct v; intros H Hx; try (injection H as <-; now right).
  - injection H as <-. now apply keys_setitem in Hx.
  - apply bind_ok in H as [items [_ H]]. destruct enum.
    + apply bind_ok in H as [cs [_ H]]. injection H as <-.
      now apply keys_setitem in Hx.
    + injection H as <-. now apply keys_setitem in Hx.
Qed.

Lemma payload_loop_keys (enum : bool) (d : dict) :
  forall out out' x,
    for_each (payload_property enum) d out = Ok out' ->
    In x (dict_keys out') -> In x (dict_keys d) \/ In x (dict_keys out).
Proof.
  induction d as [|entry d IH]; simpl; intros out out' x Hrun Hx.
  - injection Hrun as <-. now right.
  - apply bind_ok in Hrun as [out1 [Hstep Hrun]].
    destruct (IH out1 out' x Hrun Hx) as [Hin | Hin]; [tauto|].
    destruct (payload_property_keys enum out out1 entry x Hstep Hin); auto.
Qed.

(** The fragments [cv_to_property] returns are keyed by keys of the
    document. *)
Lemma cv_to_property_keys (cv : json) (enum : bool) (out : dict) (x : string) :
  snd (cv_to_property cv enum) = Ok out ->
  In x (dict_keys out) ->
  exists d, cv = JDict d /\ In x (dict_keys d).
Proof.
  unfold cv_to_property, dict_pop.
  destruct cv; simpl; try discriminate.
  destruct (dict_get d "version_metadata"); simpl; [|discriminate].
  destruct (1 <? length (dict_remove d "version_metadata"))%nat;
    [discriminate|].
  intros Hrun Hx. exists d. split; [reflexivity|].
  destruct (payload_loop_keys enum _ [] out x Hrun Hx) as [Hin | []].
  eapply keys_remove_incl, Hin.
Qed.

Lemma merge_get (prefix : string) (out : dict) (k : string) :
  forall props,
    (forall x, In x (dict_keys out) -> prefix ++ x <> k) ->
    dict_get
      (fold_left (fun props kv => dict_setitem props (prefix ++ fst kv) (snd kv))
         out props) k
    = dict_get props k.
Proof.
  induction out as [|[x v] out IH]; simpl; intros props Hne; [reflexivity|].
  rewrite IH by (intros y Hy; apply Hne; now right).
  apply dict_get_setitem_neq. intros H. apply (Hne x); auto.
Qed.

Lemma merge_wf (prefix : string) (out : dict) :
  forall props,
    dict_wf props ->
    dict_wf
      (fold_left (fun props kv => dict_setitem props (prefix ++ fst kv) (snd kv))
         out props).
Proof.
  induction out as [|[x v] out IH]; simpl; intros props Hwf; [exact Hwf|].
  apply IH. now apply dict_setitem_wf.
Qed.

Lemma overlay_get (prefix : string) (props props' : dict) (fid k : string) :
  overlay prefix props fid = Ok props' ->
  prefix ++ fid <> k ->
  dict_get props' k = dict_get props k.
Proof.
  unfold overlay. destruct (table_get formats fid); intros H Hne.
  - apply bind_ok in H as [frag [_ H]].
    destruct frag; try discriminate. injection H as <-.
    apply dict_get_setitem_neq. congruence.
  - now injection H as <-.
Qed.

Lemma overlay_wf (prefix : string) (props props' : dict) (fid : string) :
  overlay prefix props fid = Ok props' -> dict_wf props -> dict_wf props'.
Proof.
  unfold overlay. destruct (table_get formats fid); intros H Hwf.
  - apply bind_ok in H as [frag [_ H]].
    destruct frag; try discriminate. injection H as <-.
    now apply dict_setitem_wf.
  - now injection H as <-.
Qed.

Lemma classify_wf (fs : files) (prefix : string) (enum : bool)
  (props props' : dict) (fid : string) :
  classify fs prefix enum props fid = Ok props' ->
  dict_wf props -> dict_wf props'.
Proof.
  unfold classify. intros H Hwf.
  destruct (str_in fid integer_fields);
    [injection H as <-; now apply dict_setitem_wf|].
  destruct (String.eqb fid "mip_era");
    [injection H as <-; now apply dict_setitem_wf|].
  unfold try_except in H.
  destruct (read_cv fs fid) as [cv|e]; simpl in H.
  - destruct (snd (cv_to_property cv enum)) as [out|e]; simpl in H.
    + injection H as <-. now apply merge_wf.
    + destruct (is_not_found_or_key_error e); [|discriminate].
      injection H as <-. now apply dict_setitem_wf.
  - destruct (is_not_found_or_key_error e); [|discriminate].
    injection H as <-. now apply dict_setitem_wf.
Qed.

Lemma facet_step_wf (fs : files) (prefix : string) (enum : bool)
  (props props' : dict) (fid : string) :
  facet_step fs prefix enum props fid = Ok props' ->
  dict_wf props -> dict_wf props'.
Proof.
  unfold facet_step. intros H Hwf.
  apply bind_ok in H as [props1 [H1 H2]].
  eapply overlay_wf; [exact H2|]. eapply classify_wf; eauto.
Qed.

(** A round leaves the key [k] alone when it can only write other
    keys. *)
Lemma facet_step_get (fs : files) (prefix : string) (enum : bool)
  (props props' : dict) (fid k : string) :
  facet_step fs prefix enum props fid = Ok props' ->
  prefix ++ fid <> k ->
  (fid = "mip_era" -> k <> "mip_era") ->
  (forall cv x, unread fid = false -> read_cv fs fid = Ok (JDict cv) ->
     In x (dict_keys cv) -> prefix ++ x <> k) ->
  dict_get props' k = dict_get props k.
Proof.
  unfold facet_step. intros H Hfid Hera Hcv.
  apply bind_ok in H as [props1 [H1 H2]].
  rewrite (overlay_get _ _ _ _ _ H2 Hfid).
  unfold classify in H1. unfold unread in Hcv.
  destruct (str_in fid integer_fields).
  { injection H1 as <-. apply dict_get_setitem_neq. congruence. }
  destruct (String.eqb fid "mip_era") eqn:E.
  { apply String.eqb_eq in E. injection H1 as <-.
    apply dict_get_setitem_neq. auto. }
  unfold try_except in H1.
  destruct (read_cv fs fid) as [cv|e] eqn:Hread; simpl in H1.
  - destruct (snd (cv_to_property cv enum)) as [out|e] eqn:Hout; simpl in H1.
    + injection H1 as <-. apply merge_get. intros x Hx.
      destruct (cv_to_property_keys cv enum out x Hout Hx) as [d [-> Hd]].
      now apply (Hcv d x eq_refl).
    + destruct (is_not_found_or_key_error e); [|discriminate].
      injection H1 as <-. apply dict_get_setitem_neq. congruence.
  - destruct (is_not_found_or_key_error e); [|discriminate].
    injection H1 as <-. apply dict_get_setitem_neq. congruence.
Qed.

Lemma props_wf (fs : files) (prefix : string) (enum : bool)
  (fids : list string) (props : dict) :
  for_each (facet_step fs prefix enum) fids [] = Ok props -> dict_wf props.
Proof.
  apply (for_each_invariant (facet_step fs prefix enum) dict_wf fids).
  - intros s a s' _ Hs Hstep. eapply facet_step_wf; eauto.
  - constructor.
Qed.

(** A schema that was built is the document over the final [props]. *)
Lemma schema_built (fs : files) (prefix : option string) (enum : bool)
  (schema : json) :
  make_global_attrs_schema fs prefix enum = Ok schema ->
  exists fids props,
    facet_keys fs = Ok fids /\
    for_each (facet_step fs (prefix_of prefix) enum) fids [] = Ok props /\
    schema_required schema
    = Some (JList (map (fun fid => JStr (prefix_of prefix ++ fid)) fids)) /\
    forall k, schema_property schema k = dict_get props k.
Proof.
  rewrite make_global_attrs_schema_eq. intros H.
  apply bind_ok in H as [fids [Hfids H]].
  apply bind_ok in H as [props [Hprops H]]. injection H as <-.
  exists fids, props. repeat split; auto.
  - simpl. now rewrite map_map.
  - intros k. simpl. rewrite dict_update_nil; [reflexivity|].
    eapply props_wf, Hprops.
Qed.

End BuilderFacts.

Module Builder.
Import Cv2schema BuilderFacts.

Lemma read_cv_agree (fs fs' : files) (k x : string) :
  (forall path, path <> cv_path k -> fs' path = fs path) ->
  x <> k -> read_cv fs' x = read_cv fs x.
Proof.
  intros Hfs Hx. unfold read_cv, load, found.
  rewrite Hfs; [reflexivity|].
  intros H. now apply cv_path_inj in H.
Qed.

Lemma unread_cases (k : string) :
  unread k = true -> str_in k integer_fields = true \/ k = "mip_era".
Proof.
  unfold unread. intros H. apply orb_true_iff in H as [H | H]; auto.
  right. now apply String.eqb_eq.
Qed.

(** The builder never opens the CV file of an index facet or of
    [mip_era]: whatever that file holds, and whether it is there or
    not, the outcome is the same. *)
Lemma unread_file_irrelevant (fs fs' : files) (k : string) :
  unread k = true ->
  (forall path, path <> cv_path k -> fs' path = fs path) ->
  forall prefix enum,
    make_global_attrs_schema fs' prefix enum
    = make_global_attrs_schema fs prefix enum.
Proof.
  intros Hk Hfs prefix enum.
  assert (Htop : "required_global_attributes" <> k).
  { destruct (unread_cases k Hk) as [H | ->]; [|discriminate].
    destruct (index_cases k H) as [-> | [-> | [-> | ->]]]; discriminate. }
  assert (Hkeys : facet_keys fs' = facet_keys fs).
  { unfold facet_keys, read_reqs.
    now rewrite (read_cv_agree fs fs' k _ Hfs Htop). }
  rewrite !make_global_attrs_schema_eq, Hkeys.
  destruct (facet_keys fs) as [fids|e]; simpl; [|reflexivity].
  rewrite (for_each_ext (facet_step fs' (prefix_of prefix) enum)
             (facet_step fs (prefix_of prefix) enum)); [reflexivity|].
  intros props fid _. unfold facet_step, classify.
  destruct (str_in fid integer_fields) eqn:Eint; [reflexivity|].
  destruct (String.eqb fid "mip_era") eqn:Eera; [reflexivity|].
  rewrite (read_cv_agree fs fs' k fid Hfs); [reflexivity|].
  intros ->. unfold unread in Hk. rewrite Eint, Eera in Hk. discriminate.
Qed.

Lemma mip_era_step (fs : files) (prefix : string) (enum : bool)
  (props : dict) :
  facet_step fs prefix enum props "mip_era"
  = Ok (dict_setitem props "mip_era" (JDict [("const", JStr "CMIP6")])).
Proof. reflexivity. Qed.

Lemma index_step (fs : files) (prefix : string) (enum : bool)
  (props : dict) (fid : string) :
  str_in fid integer_fields = true ->
  facet_step fs prefix enum props fid
  = Ok (dict_setitem props (prefix ++ fid) (JDict [("type", JStr "integer")])).
Proof.
  intros H. unfold facet_step, classify, overlay. rewrite H.
  now rewrite (proj2 (index_not_special fid H)).
Qed.

(** C6, as stated, fails: a document read for a later facet whose
    payload is named [mip_era] replaces the constant when no prefix is
    given.  Here [mip_era] and [activity_id] are required, the document
    of [activity_id] holds a list under the key [mip_era], and the
    property [mip_era] of the schema is the enum of that list. *)
Lemma later_document_replaces_mip_era :
  facet_keys cvs_mip_era_shadowed = Ok ["mip_era"; "activity_id"] /\
  read_cv cvs_mip_era_shadowed "activity_id"
  = Ok (JDict [ ("mip_era", JList [JStr "CMIP5"]);
                ("version_metadata", version_metadata_example) ]) /\
  exists schema,
    make_global_attrs_schema cvs_mip_era_shadowed None false = Ok schema /\
    schema_required schema = Some (JList [JStr "mip_era"; JStr "activity_id"]) /\
    schema_property schema "mip_era"
    = Some (JDict [("enum", JList [JStr "CMIP5"])]) /\
    schema_property schema "mip_era" <> Some (JDict [("const", JStr "CMIP6")]).
Proof.
  split; [reflexivity|]. split; [reflexivity|].
  eexists. split; [reflexivity|]. split; [reflexivity|].
  split; [reflexivity|]. cbn. discriminate.
Qed.

(** C6, amended.  The round of [mip_era] sets the property [mip_era] to
    exactly the constant [CMIP6], for every CV set.  When [mip_era] is
    among the required facet keys and the schema is built, that is the
    property [mip_era] of the schema, provided that, when no prefix is
    given, no document the builder reads for a required facet carries a
    key named [mip_era]; and the outcome is the same whatever the file
    CMIP6_mip_era.json holds and whether it exists or not.  (The key of
    the property is [mip_era] also when a prefix is given.) *)
Theorem mip_era_is_const (fs : files) (prefix : option string) (enum : bool)
  (schema : json) (fids : list string) :
  facet_keys fs = Ok fids ->
  In "mip_era" fids ->
  (prefix_of prefix = "" ->
   forall fid cv, In fid fids -> unread fid = false ->
     read_cv fs fid = Ok (JDict cv) -> ~ In "mip_era" (dict_keys cv)) ->
  make_global_attrs_schema fs prefix enum = Ok schema ->
  (forall props,
     facet_step fs (prefix_of prefix) enum props "mip_era"
     = Ok (dict_setitem props "mip_era" (JDict [("const", JStr "CMIP6")]))) /\
  schema_property schema "mip_era" = Some (JDict [("const", JStr "CMIP6")]) /\
  forall fs',
    (forall path, path <> cv_path "mip_era" -> fs' path = fs path) ->
    make_global_attrs_schema fs' prefix enum = Ok schema.
Proof.
  intros Hkeys Hin Hcvs Hmake. split; [intros; apply mip_era_step|]. split.
  - destruct (schema_built fs prefix enum schema Hmake)
      as [fids' [props [Hkeys' [Hloop [_ Hprop]]]]].
    rewrite Hkeys in Hkeys'. injection Hkeys' as <-.
    rewrite Hprop.
    apply (for_each_last_writer (facet_step fs (prefix_of prefix) enum)
             (fun props => dict_get props "mip_era")
             (fun o => o = Some (JDict [("const", JStr "CMIP6")]))
             (fun _ => True) fids "mip_era" Hin) with (s := []);
      auto using string_dec.
    + intros s s' _ Hstep. rewrite mip_era_step in Hstep.
      injection Hstep as <-. apply dict_get_setitem_eq.
    + intros s b s' Hb Hne _ Hstep.
      apply (facet_step_get fs (prefix_of prefix) enum s s' b "mip_era" Hstep).
      * now apply prefixed_neq_mip_era.
      * intros ->. congruence.
      * intros cv x Hun Hread Hx.
        destruct (prefix_of_cases prefix) as [Hnone | [p Hp]].
        -- rewrite Hnone. intros Heq. cbn in Heq. subst x.
           now apply (Hcvs Hnone b cv).
        -- rewrite Hp. intros H. apply (f_equal no_colon) in H.
           rewrite !no_colon_append in H. simpl in H.
           rewrite andb_false_r in H. discriminate.
  - intros fs' Hfs.
    now rewrite (unread_file_irrelevant fs fs' "mip_era" eq_refl Hfs).
Qed.

Lemma mip_era_is_const_witness :
  exists schema,
    make_global_attrs_schema cvs_bad_mip_era (Some "ds") true = Ok schema /\
    schema_property schema "mip_era" = Some (JDict [("const", JStr "CMIP6")]).
Proof.
  eexists. split; [reflexivity|].
  refine (proj1 (proj2 (mip_era_is_const cvs_bad_mip_era (Some "ds") true _
                          ["activity_id"; "mip_era"; "realization_index"]
                          eq_refl _ _ eq_refl))).
  - simpl. auto.
  - intros Hprefix. discriminate Hprefix.
Defined.

(** C7, as stated, fails: a document read for a later facet whose
    payload is named after an index facet replaces the integer
    fragment, with a prefix and without.  Here [realization_index] and
    [activity_id] are required, the document of [activity_id] holds a
    mapping under the key [realization_index], and the property of
    [realization_index] is a oneOf in oneOf mode and an enum in enum
    mode. *)
Lemma later_document_replaces_index_facet :
  facet_keys cvs_index_shadowed = Ok ["realization_index"; "activity_id"] /\
  (exists schema,
     make_global_attrs_schema cvs_index_shadowed (Some "ds") false
     = Ok schema /\
     schema_property schema "ds:realization_index"
     = Some (JDict [("oneOf",
                     JList [JDict [("const", JStr "r1");
                                   ("title", JStr "first member")]])])) /\
  (exists schema,
     make_global_attrs_schema cvs_index_shadowed None true = Ok schema /\
     schema_property schema "realization_index"
     = Some (JDict [("enum", JList [JStr "r1"])])).
Proof.
  split; [reflexivity|]. split; eexists; split; reflexivity.
Qed.

(** C7, amended.  When an index facet (initialization, physics,
    realization or forcing index) is among the required facet keys and
    the schema is built, its property is exactly the fragment of type
    [integer], which has neither [oneOf] nor [enum], provided that no
    document the builder reads for a required facet carries a key named
    after the index facet; and the outcome is the same whatever the CV
    file of that facet holds and whether it exists or not.  The round of
    the facet sets that fragment for every CV set. *)
Theorem index_facets_are_integers (fs : files) (prefix : option string)
  (enum : bool) (schema : json) (fids : list string) (fid : string) :
  facet_keys fs = Ok fids ->
  In fid fids ->
  str_in fid integer_fields = true ->
  (forall fid' cv, In fid' fids -> unread fid' = false ->
     read_cv fs fid' = Ok (JDict cv) -> ~ In fid (dict_keys cv)) ->
  make_global_attrs_schema fs prefix enum = Ok schema ->
  (forall props,
     facet_step fs (prefix_of prefix) enum props fid
     = Ok (dict_setitem props (prefix_of prefix ++ fid)
             (JDict [("type", JStr "integer")]))) /\
  (exists frag,
     schema_property schema (prefix_of prefix ++ fid) = Some (JDict frag) /\
     frag = [("type", JStr "integer")] /\
     dict_get frag "oneOf" = None /\
     dict_get frag "enum" = None) /\
  forall fs',
    (forall path, path <> cv_path fid -> fs' path = fs path) ->
    make_global_attrs_schema fs' prefix enum = Ok schema.
Proof.
  intros Hkeys Hin Hidx Hcvs Hmake.
  split; [intros; now apply index_step|]. split.
  - exists [("type", JStr "integer")]. repeat split.
    destruct (schema_built fs prefix enum schema Hmake)
      as [fids' [props [Hkeys' [Hloop [_ Hprop]]]]].
    rewrite Hkeys in Hkeys'. injection Hkeys' as <-.
    rewrite Hprop.
    apply (for_each_last_writer (facet_step fs (prefix_of prefix) enum)
             (fun props => dict_get props (prefix_of prefix ++ fid))
             (fun o => o = Some (JDict [("type", JStr "integer")]))
             (fun _ => True) fids fid Hin) with (s := []);
      auto using string_dec.
    + intros s s' _ Hstep. rewrite (index_step _ _ _ _ _ Hidx) in Hstep.
      injection Hstep as <-. apply dict_get_setitem_eq.
    + intros s b s' Hb Hne _ Hstep.
      apply (facet_step_get fs (prefix_of prefix) enum s s' b _ Hstep).
      * intros H. now apply append_inv_head in H.
      * intros _. apply prefixed_neq_mip_era.
        apply (index_not_special fid Hidx).
      * intros cv x Hun Hread Hx H. apply append_inv_head in H. subst x.
        now apply (Hcvs b cv).
  - intros fs' Hfs.
    rewrite (unread_file_irrelevant fs fs' fid); auto.
    unfold unread. now rewrite Hidx.
Qed.

Lemma index_facets_are_integers_witness :
  exists schema,
    make_global_attrs_schema cvs_example (Some "ds") false = Ok schema /\
    exists frag,
      schema_property schema "ds:realization_index" = Some (JDict frag) /\
      frag = [("type", JStr "integer")] /\
      dict_get frag "oneOf" = None /\
      dict_get frag "enum" = None.
Proof.
  eexists. split; [reflexivity|].
  refine (proj1 (proj2 (index_facets_are_integers cvs_example (Some "ds")
                          false _
                          ["activity_id"; "mip_era"; "realization_index"]
                          "realization_index" eq_refl _ eq_refl _ eq_refl))).
  - simpl. auto.
  - intros fid cv [<- | [<- | [<- | []]]] Hun; try discriminate Hun.
    vm_compute. intros H. injection H as <-. simpl. intuition discriminate.
Defined.

(** The end-to-end example, in oneOf mode and in enum mode. *)
Example end_to_end_oneOf :
  exists schema,
    make_global_attrs_schema cvs_example None false = Ok schema /\
    schema_property schema "activity_id"
    = Some (JDict [("oneOf", JList [JDict [("const", JStr "CMIP");
                                           ("title", JStr "CMIP DECK")]])]) /\
    schema_property schema "mip_era"
    = Some (JDict [("const", JStr "CMIP6")]) /\
    schema_property schema "realization_index"
    = Some (JDict [("type", JStr "integer")]) /\
    schema_required schema
    = Some (JList [JStr "activity_id"; JStr "mip_era";
                   JStr "realization_index"]).
Proof.
  eexists. split; [reflexivity|]. repeat split.
Qed.

Example end_to_end_enum :
  exists schema,
    make_global_attrs_schema cvs_example None true = Ok schema /\
    schema_property schema "activity_id"
    = Some (JDict [("enum", JList [JStr "CMIP"])]).
Proof.
  eexists. split; reflexivity.
Qed.

(** C1.  The property of [mip_era] is not prefixed.  On the CV set of
    the end-to-end example with the prefix [ds], the schema is built,
    its required list holds [ds:mip_era], and its properties hold no key
    [ds:mip_era]: the fragment of [mip_era] sits under the bare key
    [mip_era], while the other two properties carry the prefix. *)
Theorem prefixed_schema_misses_mip_era :
  exists schema,
    make_global_attrs_schema cvs_example (Some "ds") false = Ok schema /\
    schema_required schema
    = Some (JList [JStr "ds:activity_id"; JStr "ds:mip_era";
                   JStr "ds:realization_index"]) /\
    schema_property schema "ds:mip_era" = None /\
    schema_property schema "mip_era"
    = Some (JDict [("const", JStr "CMIP6")]) /\
    schema_property schema "ds:realization_index"
    = Some (JDict [("type", JStr "integer")]) /\
    schema_property schema "ds:activity_id"
    = Some (JDict [("oneOf", JList [JDict [("const", JStr "CMIP");
                                           ("title", JStr "CMIP DECK")]])]).
Proof.
  eexists. split; [reflexivity|]. repeat split.
Qed.

(** C2, as stated, fails: with a required facet, neither an index facet
    nor [mip_era], whose document has two payload keys besides the
    version metadata, the build raises [ValueError] and returns no
    schema. *)
Lemma malformed_cv_aborts_the_build :
  facet_keys cvs_two_payloads = Ok ["activity_id"] /\
  unread "activity_id" = false /\
  read_cv cvs_two_payloads "activity_id" = Ok (JDict cv_two_payloads) /\
  dict_pop cv_two_payloads "version_metadata"
  = Ok (version_metadata_example,
        [ ("activity_id", JDict [("CMIP", JStr "CMIP DECK")]);
          ("activity_participation", JList [JStr "CMIP"]) ]) /\
  make_global_attrs_schema cvs_two_payloads None false
  = Raise (ValueError "CV has more than one key.").
Proof. repeat split. Qed.

(** C2, amended.  When the document of a required facet, neither an
    index facet nor [mip_era], holds the version metadata and more than
    one other key, the round of that facet raises the [ValueError] of
    [cv_to_property], which the handler for [FileNotFoundError] and
    [KeyError] lets through, and the build raises: no schema is
    returned. *)
Theorem extra_payload_keys_abort_the_build (fs : files)
  (prefix : option string) (enum : bool) (fids : list string) (fid : string)
  (cv : dict) (vm : json) (rest : dict) :
  facet_keys fs = Ok fids ->
  In fid fids ->
  unread fid = false ->
  read_cv fs fid = Ok (JDict cv) ->
  dict_pop cv "version_metadata" = Ok (vm, rest) ->
  (1 < length rest)%nat ->
  (forall props,
     facet_step fs (prefix_of prefix) enum props fid
     = Raise (ValueError "CV has more than one key.")) /\
  raises (make_global_attrs_schema fs prefix enum).
Proof.
  intros Hkeys Hin Hun Hread Hpop Hlen.
  assert (Hstep : forall props,
            facet_step fs (prefix_of prefix) enum props fid
            = Raise (ValueError "CV has more than one key.")).
  { intros props. unfold facet_step, classify.
    unfold unread in Hun. apply orb_false_iff in Hun as [-> ->].
    rewrite Hread. cbn [bind try_except]. unfold cv_to_property.
    rewrite Hpop. cbn [snd].
    apply Nat.ltb_lt in Hlen. now rewrite Hlen. }
  split; [exact Hstep|].
  rewrite make_global_attrs_schema_eq, Hkeys. cbn [bind].
  apply bind_raises.
  apply (for_each_raises _ fids fid Hin).
  intros props. eexists. apply Hstep.
Qed.

Lemma extra_payload_keys_abort_the_build_witness :
  raises (make_global_attrs_schema cvs_two_payloads (Some "ds") true).
Proof.
  refine (proj2 (extra_payload_keys_abort_the_build cvs_two_payloads
                   (Some "ds") true ["activity_id"] "activity_id"
                   cv_two_payloads version_metadata_example
                   [ ("activity_id", JDict [("CMIP", JStr "CMIP DECK")]);
                     ("activity_participation", JList [JStr "CMIP"]) ]
                   eq_refl _ eq_refl eq_refl eq_refl _)).
  - simpl. auto.
  - simpl. lia.
Defined.


(** The outcome of a build depends on the required-attributes file and
    on the files of the required facets that are neither index facets
    nor [mip_era], and on no other file. *)
Lemma build_footprint (fs fs' : files) (prefix : option string)
  (enum : bool) :
  fs' (cv_path "required_global_attributes")
  = fs (cv_path "required_global_attributes") ->
  (forall fids fid, facet_keys fs = Ok fids -> In fid fids ->
     unread fid = false -> fs' (cv_path fid) = fs (cv_path fid)) ->
  make_global_attrs_schema fs' prefix enum
  = make_global_attrs_schema fs prefix enum.
Proof.
  intros Htop Hfacets.
  assert (Hkeys : facet_keys fs' = facet_keys fs).
  { unfold facet_keys, read_reqs. now rewrite (read_cv_same fs fs' _ Htop). }
  rewrite !make_global_attrs_schema_eq, Hkeys.
  destruct (facet_keys fs) as [fids|e] eqn:Hfids; cbn [bind]; [|reflexivity].
  rewrite (for_each_ext (facet_step fs' (prefix_of prefix) enum)
             (facet_step fs (prefix_of prefix) enum)); [reflexivity|].
  intros props fid Hin. unfold facet_step, classify.
  destruct (str_in fid integer_fields) eqn:Eint; [reflexivity|].
  destruct (String.eqb fid "mip_era") eqn:Eera; [reflexivity|].
  rewrite (read_cv_same fs fs' fid); [reflexivity|].
  apply (Hfacets fids fid eq_refl Hin). unfold unread. now rewrite Eint, Eera.
Qed.



Lemma items_key_error (key : string) (entries : dict) :
  table_get field key = None ->
  existsb (fun entry => is_dict (snd entry)) entries = true ->
  forall acc, for_each (append_item key) entries acc = Raise (KeyError key).
Proof.
  intros Hfield. induction entries as [|[k v] entries IH]; simpl;
    [discriminate|].
  intros Hsub acc. destruct v; simpl in Hsub |- *; try now apply IH.
  unfold table_getitem. now rewrite Hfield.
Qed.

Lemma key_error_raised (cv : dict) (enum : bool) :
  key_error_cv cv ->
  exists k, snd (cv_to_property (JDict cv) enum) = Raise (KeyError k).
Proof.
  intros [Hvm | key entries [vm Hpop] Hfield Hsub]; unfold cv_to_property.
  - unfold dict_pop. rewrite Hvm. now exists "version_metadata".
  - rewrite Hpop. exists key. simpl.
    now rewrite (items_key_error key entries Hfield Hsub).
Qed.

(** The build over that CV set goes through, both facets degraded. *)
Example key_errors_build :
  exists schema,
    make_global_attrs_schema cvs_key_errors None false = Ok schema /\
    schema_property schema "frequency" = Some string_fragment /\
    schema_property schema "institution_id" = Some string_fragment /\
    schema_property schema "realization_index"
    = Some (JDict [("type", JStr "integer")]).
Proof.
  eexists. split; [reflexivity|]. repeat split.
Qed.

End Builder.

(** ** The schema builder of export_schema.py *)

Module ExportFacts.
Import ExportSchema.

Lemma export_payload_property_keys (out out' : dict) (entry : string * json)
  (x : string) :
  payload_property out entry = Ok out' ->
  In x (dict_keys out') -> x = fst entry \/ In x (dict_keys out).
Proof.
  destruct entry as [fid v]. unfold payload_property.
  destruct v; intros H Hx; try (injection H as <-; now right).
  - injection H as <-. now apply keys_setitem in Hx.
  - apply bind_ok in H as [items [_ H]]. injection H as <-.
    now apply keys_setitem in Hx.
Qed.

Lemma export_payload_loop_keys (d : dict) :
  forall out out' x,
    for_each payload_property d out = Ok out' ->
    In x (dict_keys out') -> In x (dict_keys d) \/ In x (dict_keys out).
Proof.
  induction d as [|entry d IH]; simpl; intros out out' x Hrun Hx.
  - injection Hrun as <-. now right.
  - apply bind_ok in Hrun as [out1 [Hstep Hrun]].
    destruct (IH out1 out' x Hrun Hx) as [Hin | Hin]; [tauto|].
    destruct (export_payload_property_keys out out1 entry x Hstep Hin); auto.
Qed.

Lemma export_cv_to_property_keys (cv : json) (out : dict) (x : string) :
  snd (cv_to_property cv) = Ok out ->
  In x (dict_keys out) ->
  exists d, cv = JDict d /\ In x (dict_keys d).
Proof.
  unfold cv_to_property, dict_pop.
  destruct cv; simpl; try discriminate.
  destruct (dict_get d "version_metadata"); simpl; [|discriminate].
  destruct (1 <? length (dict_remove d "version_metadata"))%nat;
    [discriminate|].
  intros Hrun Hx. exists d. split; [reflexivity|].
  destruct (export_payload_loop_keys _ [] out x Hrun Hx) as [Hin | []].
  eapply keys_remove_incl, Hin.
Qed.

Lemma dict_update_get (out : dict) (k : string) :
  forall props,
    ~ In k (dict_keys out) ->
    dict_get (dict_update props out) k = dict_get props k.
Proof.
  unfold dict_update.
  induction out as [|[x v] out IH]; simpl; intros props Hk; [reflexivity|].
  rewrite IH by tauto. apply dict_get_setitem_neq. intros ->. tauto.
Qed.

Lemma dict_update_wf (out : dict) :
  forall props, dict_wf props -> dict_wf (dict_update props out).
Proof.
  unfold dict_update.
  induction out as [|[x v] out IH]; simpl; intros props Hwf; [exact Hwf|].
  apply IH. now apply dict_setitem_wf.
Qed.

Lemma export_overlay_get (props props' : dict) (fid k : string) :
  overlay props fid = Ok props' -> fid <> k ->
  dict_get props' k = dict_get props k.
Proof.
  unfold overlay. destruct (table_get formats fid); intros H Hne.
  - apply bind_ok in H as [frag [_ H]].
    destruct frag; try discriminate. injection H as <-.
    apply dict_get_setitem_neq. congruence.
  - now injection H as <-.
Qed.

Lemma export_overlay_wf (props props' : dict) (fid : string) :
  overlay props fid = Ok props' -> dict_wf props -> dict_wf props'.
Proof.
  unfold overlay. destruct (table_get formats fid); intros H Hwf.
  - apply bind_ok in H as [frag [_ H]].
    destruct frag; try discriminate. injection H as <-.
    now apply dict_setitem_wf.
  - now injection H as <-.
Qed.

Lemma export_facet_step_wf (fs : files) (props props' : dict) (fid : string) :
  facet_step fs props fid = Ok props' -> dict_wf props -> dict_wf props'.
Proof.
  unfold facet_step. intros H Hwf.
  apply bind_ok in H as [props1 [H1 H2]].
  apply (export_overlay_wf _ _ _ H2). unfold classify in H1.
  destruct (str_in fid facets).
  { apply bind_ok in H1 as [cv [_ H1]]. apply bind_ok in H1 as [out [_ H1]].
    injection H1 as <-. now apply dict_update_wf. }
  destruct (str_in fid ints);
    [injection H1 as <-; now apply dict_setitem_wf|].
  destruct (String.eqb fid "mip_era");
    injection H1 as <-; now apply dict_setitem_wf.
Qed.

(** A round for another facet than [mip_era] leaves the key [mip_era]
    alone when the document it reads has no key of that name. *)
Lemma export_facet_step_get (fs : files) (props props' : dict) (fid : string) :
  facet_step fs props fid = Ok props' ->
  fid <> "mip_era" ->
  (forall cv, str_in fid facets = true -> read_cv fs fid = Ok (JDict cv) ->
     ~ In "mip_era" (dict_keys cv)) ->
  dict_get props' "mip_era" = dict_get props "mip_era".
Proof.
  unfold facet_step. intros H Hfid Hcv.
  apply bind_ok in H as [props1 [H1 H2]].
  rewrite (export_overlay_get _ _ _ _ H2 Hfid).
  unfold classify in H1.
  destruct (str_in fid facets).
  { apply bind_ok in H1 as [cv [Hread H1]].
    apply bind_ok in H1 as [out [Hout H1]]. injection H1 as <-.
    apply dict_update_get. intros Hx.
    destruct (export_cv_to_property_keys cv out _ Hout Hx) as [d [-> Hd]].
    now apply (Hcv d eq_refl). }
  destruct (str_in fid ints).
  { injection H1 as <-. apply dict_get_setitem_neq. congruence. }
  destruct (String.eqb fid "mip_era") eqn:E.
  { apply String.eqb_eq in E. contradiction. }
  injection H1 as <-. apply dict_get_setitem_neq. congruence.
Qed.

Lemma export_mip_era_step (fs : files) (props : dict) :
  facet_step fs props "mip_era"
  = Ok (dict_setitem props "mip_era" (JDict [("const", JStr "CMIP6")])).
Proof. reflexivity. Qed.

(** The counterpart of C6 for export_schema.py: when [mip_era] is among
    the required facet keys and the schema is built, its property
    [mip_era] is the constant [CMIP6], provided no document the builder
    reads has a key of that name. *)
Lemma export_schema_mip_era_const (fs : files) (schema : json) (elems : list json)
  (fids : list string) :
  export_required_elements fs = Ok elems ->
  str_keys elems = Some fids ->
  In "mip_era" fids ->
  (forall fid cv, In fid fids -> str_in fid facets = true ->
     read_cv fs fid = Ok (JDict cv) -> ~ In "mip_era" (dict_keys cv)) ->
  make_global_attrs_schema fs = Some (Ok schema) ->
  schema_property schema "mip_era" = Some (JDict [("const", JStr "CMIP6")]).
Proof.
  unfold export_required_elements, make_global_attrs_schema.
  intros Helems Hkeys Hin Hcvs Hmake.
  destruct (read_cv fs "required_global_attributes") as [doc|e];
    [|discriminate].
  cbn [bind] in Helems, Hmake.
  destruct (getitem doc "required_global_attributes") as [reqs|e];
    [|discriminate].
  cbn [bind] in Helems, Hmake. rewrite Helems in Hmake. cbn [bind] in Hmake.
  rewrite Hkeys in Hmake. injection Hmake as Hmake.
  apply bind_ok in Hmake as [props [Hloop Hmake]]. injection Hmake as <-.
  assert (Hwf : dict_wf props).
  { apply (for_each_invariant (facet_step fs) dict_wf fids) with (s := []);
      [|constructor|exact Hloop].
    intros s a s' _ Hs Hstep. eapply export_facet_step_wf; eauto. }
  simpl. rewrite (dict_update_nil props Hwf).
  apply (for_each_last_writer (facet_step fs)
           (fun props => dict_get props "mip_era")
           (fun o => o = Some (JDict [("const", JStr "CMIP6")]))
           (fun _ => True) fids "mip_era" Hin) with (s := []);
    auto using string_dec.
  - intros s s' _ Hstep. rewrite export_mip_era_step in Hstep.
    injection Hstep as <-. apply dict_get_setitem_eq.
  - intros s b s' Hb Hne _ Hstep.
    apply (export_facet_step_get fs s s' b Hstep Hne).
    intros cv Hfacet Hread. now apply (Hcvs b cv).
Qed.

End ExportFacts.

(** ** More on cv_to_property *)

Module PropertyFacts.
Import Cv2schema.

Lemma append_item_titled (fid : string) (acc : list json)
  (entry : string * json) :
  table_get field fid <> None \/ is_dict (snd entry) = false ->
  append_item fid acc entry
  = Ok (if yields_item entry then (acc ++ [item_of fid entry])%list else acc).
Proof.
  destruct entry as [key value]. unfold yields_item, item_of, title_of.
  destruct value; cbn -[table_get]; intros Ht; try reflexivity.
  unfold table_getitem.
  destruct (table_get field fid) as [f|]; [reflexivity|].
  destruct Ht as [Ht | Ht]; [congruence | discriminate].
Qed.

Lemma items_acc (fid : string) (ks : dict) :
  table_get field fid <> None \/
  forallb (fun entry => negb (is_dict (snd entry))) ks = true ->
  forall acc,
    for_each (append_item fid) ks acc
    = Ok (acc ++ map (item_of fid) (filter yields_item ks))%list.
Proof.
  induction ks as [|entry ks IH]; intros Ht acc.
  - simpl. now rewrite app_nil_r.
  - assert (Hhead : table_get field fid <> None \/ is_dict (snd entry) = false).
    { destruct Ht as [Ht | Ht]; [now left|]. right.
      simpl in Ht. apply andb_true_iff in Ht as [Ht _].
      now apply negb_true_iff in Ht. }
    assert (Hks : table_get field fid <> None \/
                  forallb (fun entry => negb (is_dict (snd entry))) ks = true).
    { destruct Ht as [Ht | Ht]; [now left|]. right.
      simpl in Ht. now apply andb_true_iff in Ht as [_ Ht]. }
    cbn [for_each filter]. rewrite (append_item_titled fid acc entry Hhead).
    cbn [bind]. rewrite (IH Hks).
    destruct (yields_item entry); [|reflexivity].
    cbn [map]. now rewrite <- app_assoc.
Qed.

(** X1.  For a well-formed mapping-shaped CV, oneOf mode returns one
    item per entry whose value is a [str] or a [dict], in the order of
    the payload; the item holds the code as [const] and, as [title], the
    string itself or the display field of the sub-mapping, the empty
    string when the sub-mapping has none. *)
Theorem oneOf_items_follow_the_payload (cv : dict) (fid : string)
  (entries : dict) :
  mapping_cv cv fid entries ->
  titled fid entries = true ->
  snd (cv_to_property (JDict cv) false)
  = Ok [(fid, JDict [("oneOf",
                      JList (map (item_of fid)
                               (filter yields_item entries)))])].
Proof.
  intros [vm Hpop] Ht. unfold cv_to_property. rewrite Hpop. simpl.
  rewrite items_acc; [reflexivity|].
  unfold titled in Ht. destruct (table_get field fid); [left; discriminate|].
  now right.
Qed.

Lemma oneOf_items_follow_the_payload_witness :
  snd (cv_to_property (JDict cv_source_id_no_label) false)
  = Ok [("source_id",
         JDict [("oneOf", JList [JDict [("const", JStr "CESM2");
                                        ("title", JStr "")]])])].
Proof.
  refine (oneOf_items_follow_the_payload cv_source_id_no_label "source_id"
            [("CESM2", JDict [("institution_id", JList [JStr "NCAR"])])]
            _ eq_refl).
  exists version_metadata_example. reflexivity.
Defined.

(** X2.  For a CV whose payload is a list, both scripts return the
    fragment [enum] over that very list, and the [enum] flag of
    cv2schema.py makes no difference. *)
Theorem list_payload_is_enum (cv : dict) (fid : string) (values : list json)
  (enum : bool) :
  list_cv cv fid values ->
  snd (cv_to_property (JDict cv) enum)
  = Ok [(fid, JDict [("enum", JList values)])] /\
  snd (ExportSchema.cv_to_property (JDict cv))
  = Ok [(fid, JDict [("enum", JList values)])].
Proof.
  intros [vm Hpop].
  unfold cv_to_property, ExportSchema.cv_to_property. rewrite Hpop.
  split; reflexivity.
Qed.

Lemma list_payload_is_enum_witness :
  snd (cv_to_property (JDict cv_nominal_resolution) true)
  = Ok [("nominal_resolution",
         JDict [("enum", JList [JStr "100 km"; JStr "250 km"])])].
Proof.
  refine (proj1 (list_payload_is_enum cv_nominal_resolution
                   "nominal_resolution" [JStr "100 km"; JStr "250 km"]
                   true _)).
  exists version_metadata_example. reflexivity.
Defined.

End PropertyFacts.

(** ** The two cv_to_property side by side *)

Module ScriptsAgree.

Lemma append_item_agree (fid : string) (acc : list json)
  (entry : string * json) :
  ExportSchema.append_item fid acc entry = Cv2schema.append_item fid acc entry
  \/ exists f,
       table_get Cv2schema.field fid = Some f /\
       ExportSchema.append_item fid acc entry = Raise (KeyError f).
Proof.
  destruct entry as [key value].
  destruct value; try (left; reflexivity).
  unfold ExportSchema.append_item, Cv2schema.append_item, table_getitem.
  change ExportSchema.field with Cv2schema.field.
  destruct (table_get Cv2schema.field fid) as [f|] eqn:E;
    cbn -[table_get]; [|now left].
  unfold dict_getitem, dict_get_default.
  destruct (dict_get d f); cbn -[table_get]; [now left|].
  right. now exists f.
Qed.

Lemma items_agree (fid : string) (ks : dict) :
  forall acc,
    for_each (ExportSchema.append_item fid) ks acc
    = for_each (Cv2schema.append_item fid) ks acc
    \/ exists f items,
         table_get Cv2schema.field fid = Some f /\
         for_each (ExportSchema.append_item fid) ks acc = Raise (KeyError f) /\
         for_each (Cv2schema.append_item fid) ks acc = Ok items.
Proof.
  induction ks as [|entry ks IH]; intros acc; [now left|].
  cbn [for_each].
  destruct (append_item_agree fid acc entry) as [-> | [f [Hf ->]]].
  - destruct (Cv2schema.append_item fid acc entry) as [acc'|e];
      cbn [bind]; [apply IH | now left].
  - right. exists f. cbn [bind].
    destruct (Cv2schemaFacts.items_total fid (entry :: ks)) with (acc := acc)
      as [items Hitems].
    + unfold titled. now rewrite Hf.
    + exists items. auto.
Qed.

(** X3.  The [cv_to_property] of export_schema.py and that of
    cv2schema.py in oneOf mode leave the caller's document in the same
    state and return or raise the same, with one exception: where a
    sub-mapping lacks the display field of its facet, export_schema.py
    raises [KeyError] of that field and cv2schema.py returns. *)
Theorem cv_to_property_agree (cv : json) :
  fst (ExportSchema.cv_to_property cv) = fst (Cv2schema.cv_to_property cv false)
  /\ (snd (ExportSchema.cv_to_property cv)
      = snd (Cv2schema.cv_to_property cv false)
      \/ exists f out,
           In f (map snd Cv2schema.field) /\
           snd (ExportSchema.cv_to_property cv) = Raise (KeyError f) /\
           snd (Cv2schema.cv_to_property cv false) = Ok out).
Proof.
  unfold ExportSchema.cv_to_property, Cv2schema.cv_to_property.
  destruct cv; try (split; [reflexivity | now left]).
  destruct (dict_pop d "version_metadata") as [[vm rest]|e];
    [|split; [reflexivity | now left]].
  split; [reflexivity|]. cbn [snd].
  destruct (1 <? length rest)%nat eqn:Hlen; [now left|].
  destruct rest as [|[fid payload] [|x rest]]; [now left | | discriminate].
  cbn [for_each ExportSchema.payload_property Cv2schema.payload_property].
  destruct payload; try (left; reflexivity).
  destruct (items_agree fid d0 []) as [-> | [f [items [Hf [-> ->]]]]];
    [now left|].
  right. exists f. eexists. split; [|split; reflexivity].
  revert Hf. unfold Cv2schema.field. cbn -[String.eqb].
  destruct (String.eqb "source_id" fid); [intros [= <-]; simpl; auto|].
  destruct (String.eqb "experiment_id" fid); [intros [= <-]; simpl; auto|].
  discriminate.
Qed.

End ScriptsAgree.

(** ** More on the schema builder of cv2schema.py *)

Module BuilderExtras.
Import Cv2schema BuilderFacts.

Lemma dict_setitem_twice (d : dict) (k : string) (v v' : json) :
  dict_setitem (dict_setitem d k v) k v' = dict_setitem d k v'.
Proof.
  induction d as [|[k0 v0] d IH]; simpl.
  - now rewrite String.eqb_refl.
  - destruct (String.eqb k0 k) eqn:E; simpl; rewrite E; [reflexivity|].
    now rewrite IH.
Qed.

(** The format overlay right after the round wrote the fragment of the
    facet. *)
Lemma overlay_after_write (prefix : string) (props : dict) (fid : string)
  (f : dict) :
  overlay prefix (dict_setitem props (prefix ++ fid) (JDict f)) fid
  = Ok (dict_setitem props (prefix ++ fid)
          (JDict (match table_get formats fid with
                  | None => f
                  | Some fmt => dict_setitem f "format" (JStr fmt)
                  end))).
Proof.
  unfold overlay. destruct (table_get formats fid) as [fmt|]; [|reflexivity].
  unfold dict_getitem. rewrite dict_get_setitem_eq. cbn [bind].
  now rewrite dict_setitem_twice.
Qed.

Lemma read_cv_absent (fs : files) (fid : string) :
  path_refused (cv_path fid) = None ->
  fs (cv_path fid) = Absent ->
  read_cv fs fid = Raise (FileNotFoundError (cv_path fid)).
Proof.
  intros Hpath Habs. unfold read_cv, load.
  now rewrite Hpath, (found_absent fs _ Habs).
Qed.

Lemma read_cv_refused (fs : files) (fid : string) (e : exn) :
  path_refused (cv_path fid) = Some e -> read_cv fs fid = Raise e.
Proof. unfold read_cv, load, found. now intros ->. Qed.

(** The round of a read facet raises what [open] raises when it refuses
    the path. *)
Lemma refused_round (fs : files) (prefix : string) (enum : bool)
  (props : dict) (fid : string) (e : exn) :
  unread fid = false ->
  path_refused (cv_path fid) = Some e ->
  facet_step fs prefix enum props fid = Raise e.
Proof.
  unfold unread. intros Hun He. apply orb_false_iff in Hun as [Hint Hera].
  unfold facet_step, classify. rewrite Hint, Hera.
  rewrite (read_cv_refused fs fid e He). cbn [bind try_except].
  now rewrite (path_refused_not_caught _ _ He).
Qed.

Lemma unread_false (fid : string) :
  unread fid = false ->
  str_in fid integer_fields = false /\ String.eqb fid "mip_era" = false.
Proof. unfold unread. apply orb_false_iff. Qed.

(** X4.  When [open] finds no CV file for a facet that is neither an
    index facet nor [mip_era]: if the path is one [open] accepts, the
    round of the facet does not raise and sets the property of the facet
    to the fragment of type [string], to which the format is added for
    [creation_date] and [further_info_url]; if [open] refuses the path
    whatever the directory holds (a surrogate that cannot be encoded, a
    NUL character, more than 4095 bytes, a first name of more than 255
    bytes), the round raises the [UnicodeEncodeError], [ValueError] or
    [OSError] of [open], which the handler does not catch. *)
Theorem absent_file_degrades_to_string (fs : files) (prefix : string)
  (enum : bool) (props : dict) (fid : string) :
  unread fid = false ->
  fs (cv_path fid) = Absent ->
  facet_step fs prefix enum props fid
  = match path_refused (cv_path fid) with
    | Some e => Raise e
    | None =>
        Ok (dict_setitem props (prefix ++ fid)
              (JDict (match table_get formats fid with
                      | None => [("type", JStr "string")]
                      | Some fmt =>
                          [("type", JStr "string"); ("format", JStr fmt)]
                      end)))
    end.
Proof.
  intros Hun Habs.
  destruct (path_refused (cv_path fid)) as [e|] eqn:Hpath;
    [now apply refused_round|].
  destruct (unread_false fid Hun) as [Hint Hera].
  unfold facet_step, classify. rewrite Hint, Hera.
  rewrite (read_cv_absent fs fid Hpath Habs). cbn [bind try_except
    is_not_found_or_key_error].
  rewrite overlay_after_write.
  now destruct (table_get formats fid).
Qed.

Lemma absent_file_degrades_to_string_witness :
  facet_step cvs_example "ds:" true [] "creation_date"
  = Ok [("ds:creation_date",
         JDict [("type", JStr "string"); ("format", JStr "date-time")])] /\
  facet_step cvs_example "ds:" true [] fid_with_nul
  = Raise (ValueError "embedded null byte") /\
  facet_step cvs_example "ds:" true [] fid_with_surrogate
  = Raise UnicodeEncodeError.
Proof.
  split; [|split].
  - exact (absent_file_degrades_to_string cvs_example "ds:" true []
             "creation_date" eq_refl eq_refl).
  - exact (absent_file_degrades_to_string cvs_example "ds:" true []
             fid_with_nul eq_refl eq_refl).
  - exact (absent_file_degrades_to_string cvs_example "ds:" true []
             fid_with_surrogate eq_refl eq_refl).
Defined.

(** *** Builds that go through *)

Lemma expected_cv_fragment (fid : string) (doc : json) (enum : bool) :
  expected_cv fid doc ->
  (exists k, snd (cv_to_property doc enum) = Raise (KeyError k)) \/
  exists f, snd (cv_to_property doc enum) = Ok [(fid, JDict f)].
Proof.
  intros [cv [-> [Hvm | [vm [payload [Hpop Hshape]]]]]];
    unfold cv_to_property.
  - left. unfold dict_pop. rewrite Hvm. now exists "version_metadata".
  - rewrite Hpop. cbn [snd length Nat.ltb Nat.leb for_each].
    destruct payload; try discriminate.
    + right. now eexists.
    + cbn [payload_property].
      destruct (for_each (append_item fid) d []) as [items|e] eqn:Hitems.
      * right. cbn [bind]. destruct enum; [|now eexists].
        rewrite (Cv2schemaFacts.items_consts fid d [] items [] Hitems eq_refl).
        now eexists.
      * left. cbn [bind].
        assert (He : e = KeyError fid); [|subst e; now exists fid].
        clear -Hitems. revert Hitems. generalize (@nil json).
        induction d as [|[key value] d IH]; intros acc; [discriminate|].
        cbn [for_each]. destruct value; cbn -[table_get]; try apply IH.
        unfold table_getitem.
        destruct (table_get field fid); cbn -[table_get]; [apply IH|].
        now intros [= <-].
Qed.

(** The round of a serviceable facet returns, and sets the key it
    writes for the facet to a JSON object. *)
Lemma serviceable_round (fs : files) (prefix : string) (enum : bool)
  (props : dict) (fid : string) :
  serviceable fs fid ->
  exists f,
    facet_step fs prefix enum props fid
    = Ok (dict_setitem props (written_key prefix fid) (JDict f)).
Proof.
  unfold written_key.
  intros [Hun | Hrest].
  { apply Builder.unread_cases in Hun as [Hidx | ->].
    - rewrite (Builder.index_step fs prefix enum props fid Hidx).
      destruct (index_not_special fid Hidx) as [Hne _].
      apply String.eqb_neq in Hne. rewrite Hne. now eexists.
    - rewrite Builder.mip_era_step. now eexists. }
  unfold facet_step, classify.
  destruct (str_in fid integer_fields) eqn:Hidx.
  { destruct (index_not_special fid Hidx) as [Hne _].
    apply String.eqb_neq in Hne. rewrite Hne. cbn [bind].
    rewrite overlay_after_write. now eexists. }
  destruct (String.eqb fid "mip_era") eqn:Hera.
  { apply String.eqb_eq in Hera. subst fid. now eexists. }
  destruct Hrest as [Hpath [Habs | [Hshort [doc [Hdoc Hshape]]]]].
  - rewrite (read_cv_absent fs fid Hpath Habs).
    cbn [bind try_except is_not_found_or_key_error].
    rewrite overlay_after_write. now eexists.
  - unfold read_cv, load. rewrite Hpath, (found_short fs _ Hshort), Hdoc.
    cbn [bind].
    destruct (expected_cv_fragment fid doc enum Hshape) as [[k ->] | [f ->]];
      cbn [bind try_except is_not_found_or_key_error fold_left fst snd];
      rewrite overlay_after_write; now eexists.
Qed.

Lemma serviceable_loop (fs : files) (prefix : string) (enum : bool)
  (fids : list string) :
  (forall fid, In fid fids -> serviceable fs fid) ->
  forall props,
  exists props',
    for_each (facet_step fs prefix enum) fids props = Ok props' /\
    (forall k, In k (dict_keys props) -> In k (dict_keys props')) /\
    (forall fid, In fid fids -> In (written_key prefix fid) (dict_keys props')).
Proof.
  induction fids as [|fid fids IH]; intros Hall props.
  - exists props. simpl. tauto.
  - destruct (serviceable_round fs prefix enum props fid) as [f Hstep];
      [apply Hall; now left|].
    destruct (IH (fun x Hx => Hall x (or_intror Hx))
                (dict_setitem props (written_key prefix fid) (JDict f)))
      as [props' [Hrun [Hmono Hkeys]]].
    exists props'. cbn [for_each]. rewrite Hstep. cbn [bind].
    split; [exact Hrun|]. split.
    + intros k Hk. apply Hmono, keys_setitem. now right.
    + intros x [<- | Hx]; [|now apply Hkeys].
      apply Hmono, keys_setitem. now left.
Qed.

(** X5.  When the required-attributes list can be read and every
    required facet is an index facet, [mip_era], or a facet whose CV
    path [open] accepts and where [open] finds no file or a file
    holding a document of the expected shape, the build returns a
    schema; its
    required list is the facet keys, each with the prefix, in order; and
    for every required facet the schema has a property under the key the
    round writes: the prefixed facet key, but the bare [mip_era] for
    [mip_era].  Without prefix every required key has its property. *)
Theorem serviceable_build_is_complete (fs : files) (prefix : option string)
  (enum : bool) (fids : list string) :
  facet_keys fs = Ok fids ->
  (forall fid, In fid fids -> serviceable fs fid) ->
  exists schema,
    make_global_attrs_schema fs prefix enum = Ok schema /\
    schema_required schema
    = Some (JList (map (fun fid => JStr (prefix_of prefix ++ fid)) fids)) /\
    (forall fid, In fid fids ->
       schema_property schema (written_key (prefix_of prefix) fid) <> None) /\
    (prefix_of prefix = "" ->
     forall fid, In fid fids -> schema_property schema fid <> None).
Proof.
  intros Hkeys Hall.
  destruct (serviceable_loop fs (prefix_of prefix) enum fids Hall [])
    as [props [Hrun [_ Hwritten]]].
  assert (Hmake : make_global_attrs_schema fs prefix enum
                  = Ok (schema_doc (map (fun fid => prefix_of prefix ++ fid) fids)
                          props)).
  { rewrite make_global_attrs_schema_eq, Hkeys. cbn [bind].
    now rewrite Hrun. }
  eexists. split; [exact Hmake|].
  destruct (schema_built fs prefix enum _ Hmake)
    as [fids' [props' [Hkeys' [Hrun' [Hreq Hprop]]]]].
  rewrite Hkeys in Hkeys'. injection Hkeys' as <-.
  rewrite Hrun in Hrun'. injection Hrun' as <-.
  split; [exact Hreq|].
  assert (Hall_keys : forall fid, In fid fids ->
            schema_property
              (schema_doc (map (fun fid => prefix_of prefix ++ fid) fids) props)
              (written_key (prefix_of prefix) fid) <> None).
  { intros fid Hin. rewrite Hprop. intros Hnone.
    apply dict_get_None in Hnone. now apply Hnone, Hwritten. }
  split; [exact Hall_keys|].
  intros Hempty fid Hin. specialize (Hall_keys fid Hin).
  rewrite Hempty in Hall_keys. unfold written_key in Hall_keys.
  destruct (String.eqb fid "mip_era") eqn:E; [|exact Hall_keys].
  apply String.eqb_eq in E. now subst fid.
Qed.

Lemma serviceable_build_is_complete_witness :
  exists schema,
    make_global_attrs_schema cvs_key_errors None true = Ok schema /\
    schema_required schema
    = Some (JList [JStr "frequency"; JStr "institution_id";
                   JStr "realization_index"]) /\
    schema_property schema "institution_id" <> None.
Proof.
  destruct (serviceable_build_is_complete cvs_key_errors None true
              ["frequency"; "institution_id"; "realization_index"] eq_refl)
    as [schema [Hmake [Hreq [_ Hall]]]].
  - intros fid [<- | [<- | [<- | []]]].
    + right. split; [reflexivity|].
      right. split; [reflexivity|]. exists (JDict cv_no_version_metadata).
      split; [reflexivity|]. exists cv_no_version_metadata.
      split; [reflexivity | now left].
    + right. split; [reflexivity|].
      right. split; [reflexivity|]. exists (JDict cv_institution_id).
      split; [reflexivity|]. exists cv_institution_id.
      split; [reflexivity|]. right.
      exists version_metadata_example. eexists. split; reflexivity.
    + now left.
  - exists schema. split; [exact Hmake|]. split; [exact Hreq|].
    apply (Hall eq_refl). simpl. auto.
Defined.

End BuilderExtras.

(** ** What every built schema satisfies *)

Module SchemaInvariants.
Import Cv2schema BuilderFacts.

(** A property kept by [dict_setitem] when the new value has it. *)
Lemma setitem_values (Q : string -> json -> Prop) (d : dict) (k : string)
  (v : json) :
  (forall k' v', dict_get d k' = Some v' -> Q k' v') ->
  Q k v ->
  forall k' v', dict_get (dict_setitem d k v) k' = Some v' -> Q k' v'.
Proof.
  intros Hd Hv k' v' Hget.
  destruct (string_dec k' k) as [-> | Hne].
  - rewrite dict_get_setitem_eq in Hget. now injection Hget as <-.
  - rewrite dict_get_setitem_neq in Hget by exact Hne. now apply Hd.
Qed.

Lemma merge_values (Q : string -> json -> Prop) (prefix : string)
  (out : dict) :
  (forall k v, In (k, v) out -> Q (prefix ++ k) v) ->
  forall props,
    (forall k v, dict_get props k = Some v -> Q k v) ->
    forall k v,
      dict_get
        (fold_left (fun props kv => dict_setitem props (prefix ++ fst kv) (snd kv))
           out props) k = Some v ->
      Q k v.
Proof.
  induction out as [|[x w] out IH]; intros Hout props Hprops; [exact Hprops|].
  cbn [fold_left fst snd]. apply IH.
  - intros k v Hin. apply Hout. now right.
  - apply setitem_values; [exact Hprops|]. apply Hout. now left.
Qed.

(** The fragments [cv_to_property] returns. *)
Lemma payload_property_fragment (enum : bool) (out out' : dict)
  (entry : string * json) :
  payload_property enum out entry = Ok out' ->
  (forall k v, In (k, v) out -> fragment_ok enum v = true) ->
  forall k v, In (k, v) out' -> fragment_ok enum v = true.
Proof.
  destruct entry as [fid payload]. unfold payload_property.
  assert (Hset : forall frag, fragment_ok enum frag = true ->
            (forall k v, In (k, v) out -> fragment_ok enum v = true) ->
            forall k v, In (k, v) (dict_setitem out fid frag) ->
                        fragment_ok enum v = true).
  { intros frag Hfrag. clear -Hfrag. induction out as [|[k0 v0] out IH];
      simpl; intros Hout k v Hin.
    - destruct Hin as [[= <- <-] | []]. exact Hfrag.
    - destruct (String.eqb k0 fid).
      + destruct Hin as [[= <- <-] | Hin]; [exact Hfrag|].
        apply (Hout k v). now right.
      + destruct Hin as [[= <- <-] | Hin]; [apply (Hout k0 v0); now left|].
        apply (IH (fun k v H => Hout k v (or_intror H)) k v Hin). }
  destruct payload; intros H Hout; try (injection H as <-; exact Hout).
  - injection H as <-. now apply Hset.
  - apply bind_ok in H as [items [_ H]]. destruct enum.
    + apply bind_ok in H as [cs [_ H]]. injection H as <-. now apply Hset.
    + injection H as <-. now apply Hset.
Qed.

Lemma cv_to_property_fragments (cv : json) (enum : bool) (out : dict) :
  snd (cv_to_property cv enum) = Ok out ->
  forall k v, In (k, v) out -> fragment_ok enum v = true.
Proof.
  unfold cv_to_property.
  destruct cv; try discriminate.
  destruct (dict_pop d "version_metadata") as [[vm rest]|e]; [|discriminate].
  cbn [snd]. destruct (1 <? length rest)%nat; [discriminate|].
  assert (Hloop : forall rest out0 out,
            for_each (payload_property enum) rest out0 = Ok out ->
            (forall k v, In (k, v) out0 -> fragment_ok enum v = true) ->
            forall k v, In (k, v) out -> fragment_ok enum v = true).
  { clear. induction rest as [|entry rest IH]; cbn [for_each];
      intros out0 out Hrun Hout0.
    - now injection Hrun as <-.
    - apply bind_ok in Hrun as [out1 [Hstep Hrun]].
      apply (IH out1 out Hrun).
      now apply (payload_property_fragment enum out0 out1 entry). }
  intros Hrun. apply (Hloop rest [] out Hrun). intros k v [].
Qed.

Lemma kind_key_not_format (enum : bool) (k : string) :
  kind_key enum k = true -> String.eqb k "format" = false.
Proof.
  unfold kind_key. intros H.
  repeat (apply orb_true_iff in H as [H | H]);
    try (apply andb_true_iff in H as [_ H]);
    apply String.eqb_eq in H; now subst k.
Qed.

Lemma format_keeps_fragment (enum : bool) (f : dict) (fmt : string) :
  fragment_ok enum (JDict f) = true ->
  fragment_ok enum (JDict (dict_setitem f "format" (JStr fmt))) = true.
Proof.
  destruct f as [|[k v] [|[k' v'] [|x f]]]; try discriminate.
  - cbn [fragment_ok dict_setitem]. intros Hk.
    rewrite (kind_key_not_format enum k Hk). cbn [fragment_ok].
    now rewrite Hk.
  - cbn [fragment_ok]. destruct v'; try discriminate. intros H.
    apply andb_true_iff in H as [Hk Hk'].
    cbn [dict_setitem]. rewrite (kind_key_not_format enum k Hk), Hk'.
    cbn [fragment_ok]. now rewrite Hk, Hk'.
  - cbn [fragment_ok]. now destruct v'.
Qed.

Lemma facet_step_props_ok (fs : files) (prefix : string) (enum : bool)
  (props props' : dict) (fid : string) :
  props_ok prefix enum props ->
  facet_step fs prefix enum props fid = Ok props' ->
  props_ok prefix enum props'.
Proof.
  unfold facet_step, props_ok. intros Hprops Hstep.
  apply bind_ok in Hstep as [props1 [Hclass Hover]].
  assert (H1 : forall k v, dict_get props1 k = Some v ->
            (k = "mip_era" \/ exists x, k = prefix ++ x) /\
            fragment_ok enum v = true).
  { unfold classify in Hclass.
    destruct (str_in fid integer_fields).
    { injection Hclass as <-. apply setitem_values; [exact Hprops|].
      split; [right; now exists fid | now destruct enum]. }
    destruct (String.eqb fid "mip_era").
    { injection Hclass as <-. apply setitem_values; [exact Hprops|].
      split; [now left | now destruct enum]. }
    assert (Hfallback : forall k v,
              dict_get (dict_setitem props (prefix ++ fid)
                          (JDict [("type", JStr "string")])) k = Some v ->
              (k = "mip_era" \/ exists x, k = prefix ++ x) /\
              fragment_ok enum v = true).
    { apply setitem_values; [exact Hprops|].
      split; [right; now exists fid | now destruct enum]. }
    unfold try_except in Hclass.
    destruct (read_cv fs fid) as [cv|e]; cbn [bind] in Hclass.
    - destruct (snd (cv_to_property cv enum)) as [out|e] eqn:Hout;
        cbn [bind] in Hclass.
      + injection Hclass as <-.
        apply (merge_values
                 (fun k v => (k = "mip_era" \/ exists x, k = prefix ++ x) /\
                             fragment_ok enum v = true));
          [|exact Hprops].
        intros k v Hin. split; [right; now exists k|].
        now apply (cv_to_property_fragments cv enum out Hout k v).
      + destruct (is_not_found_or_key_error e); [|discriminate].
        now injection Hclass as <-.
    - destruct (is_not_found_or_key_error e); [|discriminate].
      now injection Hclass as <-. }
  unfold overlay in Hover.
  destruct (table_get formats fid) as [fmt|]; [|now injection Hover as <-].
  unfold dict_getitem in Hover.
  destruct (dict_get props1 (prefix ++ fid)) as [frag|] eqn:Hfrag;
    [|discriminate].
  cbn [bind] in Hover. destruct frag; try discriminate.
  injection Hover as <-. apply setitem_values; [exact H1|].
  split; [right; now exists fid|].
  apply format_keeps_fragment. now apply (H1 _ _ Hfrag).
Qed.

(** X6.  In every schema that is built, each property key is the bare
    [mip_era] or starts with the prefix, and each property is a JSON
    object with exactly one of the keys [type], [const], [enum] and
    [oneOf], followed at most by a [format] that is a string; in enum
    mode no property has [oneOf]. *)
Theorem built_properties_are_fragments (fs : files) (prefix : option string)
  (enum : bool) (schema : json) (k : string) (frag : json) :
  make_global_attrs_schema fs prefix enum = Ok schema ->
  schema_property schema k = Some frag ->
  (k = "mip_era" \/ exists x, k = prefix_of prefix ++ x) /\
  fragment_ok enum frag = true /\
  (enum = true -> forall f, frag = JDict f -> dict_get f "oneOf" = None).
Proof.
  intros Hmake Hprop.
  destruct (schema_built fs prefix enum schema Hmake)
    as [fids [props [_ [Hrun [_ Hget]]]]].
  rewrite Hget in Hprop.
  assert (Hok : props_ok (prefix_of prefix) enum props).
  { apply (for_each_invariant (facet_step fs (prefix_of prefix) enum)
             (props_ok (prefix_of prefix) enum) fids) with (s := []);
      [|intros ? ? [=]|exact Hrun].
    intros s a s' _ Hs Hstep. now apply (facet_step_props_ok fs _ _ s s' a). }
  destruct (Hok k frag Hprop) as [Hkey Hfrag].
  split; [exact Hkey|]. split; [exact Hfrag|].
  intros -> f ->. revert Hfrag. unfold fragment_ok, kind_key.
  destruct f as [|[k1 v1] [|[k2 v2] [|x f]]]; try discriminate.
  - cbn [negb andb]. rewrite orb_false_r. intros H. cbn [dict_get].
    destruct (String.eqb k1 "oneOf") eqn:E; [|reflexivity].
    apply String.eqb_eq in E. now subst k1.
  - destruct v2; try discriminate. cbn [negb andb]. rewrite orb_false_r.
    intros H. apply andb_true_iff in H as [H1 H2]. cbn [dict_get].
    destruct (String.eqb k1 "oneOf") eqn:E1;
      [apply String.eqb_eq in E1; now subst k1|].
    destruct (String.eqb k2 "oneOf") eqn:E2; [|reflexivity].
    apply String.eqb_eq in E2. now subst k2.
  - now destruct v2.
Qed.

Lemma built_properties_are_fragments_witness :
  fragment_ok true (JDict [("enum", JList [JStr "CMIP"])]) = true /\
  dict_get [("enum", JList [JStr "CMIP"])] "oneOf" = None.
Proof.
  destruct (built_properties_are_fragments cvs_example (Some "ds") true
              (schema_doc ["ds:activity_id"; "ds:mip_era"; "ds:realization_index"]
                 [("ds:activity_id", JDict [("enum", JList [JStr "CMIP"])]);
                  ("mip_era", JDict [("const", JStr "CMIP6")]);
                  ("ds:realization_index", JDict [("type", JStr "integer")])])
              "ds:activity_id" (JDict [("enum", JList [JStr "CMIP"])])
              eq_refl eq_refl) as [_ [Hfrag Hone]].
  split; [exact Hfrag | exact (Hone eq_refl _ eq_refl)].
Defined.

End SchemaInvariants.

(** ** Edge cases of the schema builder of cv2schema.py *)

Module BuilderEdges.
Import Cv2schema BuilderFacts.

(** X7.  A document that holds the version metadata and nothing else,
    or one payload that is neither a mapping nor a list (a string, a
    number, [null]), gives the facet no property at all: the round
    leaves the properties as they were.  For a facet with a format the
    round then looks the property up and, when no earlier round set it,
    raises a [KeyError] that nothing catches. *)
Theorem shapeless_payload_gives_no_property (fs : files) (prefix : string)
  (enum : bool) (props : dict) (fid : string) (cv : dict) (vm : json)
  (rest : dict) :
  unread fid = false ->
  read_cv fs fid = Ok (JDict cv) ->
  dict_pop cv "version_metadata" = Ok (vm, rest) ->
  (rest = [] \/
   exists key payload,
     rest = [(key, payload)] /\ is_dict payload = false /\
     is_list payload = false) ->
  classify fs prefix enum props fid = Ok props /\
  (table_get formats fid = None ->
   facet_step fs prefix enum props fid = Ok props) /\
  (table_get formats fid <> None ->
   dict_get props (prefix ++ fid) = None ->
   facet_step fs prefix enum props fid = Raise (KeyError (prefix ++ fid))).
Proof.
  intros Hun Hread Hpop Hrest.
  destruct (BuilderExtras.unread_false fid Hun) as [Hint Hera].
  assert (Hclass : classify fs prefix enum props fid = Ok props).
  { unfold classify. rewrite Hint, Hera, Hread. cbn [bind].
    unfold cv_to_property. rewrite Hpop. cbn [snd].
    destruct Hrest as [-> | [key [payload [-> [Hd Hl]]]]]; [reflexivity|].
    cbn [length Nat.ltb Nat.leb for_each payload_property].
    destruct payload; try discriminate; reflexivity. }
  split; [exact Hclass|]. unfold facet_step. rewrite Hclass. cbn [bind].
  unfold overlay. split.
  - now intros ->.
  - intros Hfmt Hget. destruct (table_get formats fid); [|congruence].
    unfold dict_getitem. now rewrite Hget.
Qed.

Lemma shapeless_payload_gives_no_property_witness :
  facet_step cvs_product "" false [] "product" = Ok [].
Proof.
  refine (proj1 (proj2 (shapeless_payload_gives_no_property cvs_product ""
                          false [] "product" cv_product
                          version_metadata_example
                          [("product", JStr "model-output")]
                          eq_refl eq_refl eq_refl _)) eq_refl).
  right. exists "product", (JStr "model-output"). auto.
Defined.

(** X8.  A CV file that parses to something else than a JSON object
    makes the build fail: [cv.pop] raises [TypeError] on a list and
    [AttributeError] on a string, a number, a boolean or [null], and the
    handler of the builder catches neither. *)
Theorem document_that_is_no_object_aborts (fs : files)
  (prefix : option string) (enum : bool) (fids : list string) (fid : string)
  (doc : json) :
  facet_keys fs = Ok fids ->
  In fid fids ->
  unread fid = false ->
  read_cv fs fid = Ok doc ->
  is_dict doc = false ->
  (forall props,
     facet_step fs (prefix_of prefix) enum props fid
     = Raise (if is_list doc then TypeError else AttributeError)) /\
  raises (make_global_attrs_schema fs prefix enum).
Proof.
  intros Hkeys Hin Hun Hread Hdoc.
  destruct (BuilderExtras.unread_false fid Hun) as [Hint Hera].
  assert (Hstep : forall props,
            facet_step fs (prefix_of prefix) enum props fid
            = Raise (if is_list doc then TypeError else AttributeError)).
  { intros props. unfold facet_step, classify.
    rewrite Hint, Hera, Hread. cbn [bind].
    destruct doc; try discriminate; reflexivity. }
  split; [exact Hstep|].
  rewrite make_global_attrs_schema_eq, Hkeys. cbn [bind].
  apply bind_raises, (for_each_raises _ fids fid Hin).
  intros props. eexists. apply Hstep.
Qed.

Lemma document_that_is_no_object_aborts_witness :
  raises (make_global_attrs_schema cvs_realm_array None false).
Proof.
  refine (proj2 (document_that_is_no_object_aborts cvs_realm_array None false
                   ["realm"] "realm" (JList [JStr "atmos"; JStr "ocean"])
                   eq_refl _ eq_refl eq_refl eq_refl)).
  simpl. auto.
Defined.

Lemma comprehension_str_add (elems : list json) :
  forallb is_str elems = false ->
  comprehension (str_add "") elems = Raise TypeError.
Proof.
  induction elems as [|x elems IH]; [discriminate|].
  cbn [forallb comprehension]. intros H.
  destruct x; try reflexivity.
  cbn [is_str andb] in H. cbn [str_add bind]. now rewrite (IH H).
Qed.

(** X9.  When the payload of the required-attributes file cannot be
    iterated (a number, a boolean, [null]) or yields an element that is
    not a string, the build raises [TypeError] while it makes the
    required list, before it opens the file of any facet: the other
    files of the directory make no difference. *)
Theorem required_list_of_strings_only (fs : files) (prefix : option string)
  (enum : bool) (reqs : json) :
  read_reqs fs = Ok reqs ->
  strings_only reqs = false ->
  make_global_attrs_schema fs prefix enum = Raise TypeError /\
  forall fs',
    fs' (cv_path "required_global_attributes")
    = fs (cv_path "required_global_attributes") ->
    make_global_attrs_schema fs' prefix enum = Raise TypeError.
Proof.
  intros Hreqs Hstr.
  assert (Hkeys : forall fs', read_reqs fs' = Ok reqs ->
            make_global_attrs_schema fs' prefix enum = Raise TypeError).
  { intros fs' H'. rewrite make_global_attrs_schema_eq.
    unfold facet_keys. rewrite H'. cbn [bind]. unfold required_of.
    unfold strings_only in Hstr.
    destruct reqs; try reflexivity; cbn [iter bind] in Hstr |- *;
      now rewrite (comprehension_str_add _ Hstr). }
  split; [now apply Hkeys|].
  intros fs' Hsame. apply Hkeys. revert Hreqs.
  unfold read_reqs, read_cv, load, found. now rewrite Hsame.
Qed.

Lemma required_list_of_strings_only_witness :
  make_global_attrs_schema cvs_required_number (Some "ds") true
  = Raise TypeError.
Proof.
  exact (proj1 (required_list_of_strings_only cvs_required_number
                  (Some "ds") true
                  (JList [JStr "realm"; JInt 6]) eq_refl eq_refl)).
Defined.

(** X10.  The build reads the required-attributes file and the files of
    the required facets that are neither index facets nor [mip_era],
    and nothing else: two directories that agree on these files give
    the same outcome. *)
Theorem build_reads_required_files_only (fs fs' : files)
  (prefix : option string) (enum : bool) (fids : list string) :
  facet_keys fs = Ok fids ->
  fs' (cv_path "required_global_attributes")
  = fs (cv_path "required_global_attributes") ->
  (forall fid, In fid fids -> unread fid = false ->
     fs' (cv_path fid) = fs (cv_path fid)) ->
  make_global_attrs_schema fs' prefix enum
  = make_global_attrs_schema fs prefix enum.
Proof.
  intros Hkeys Htop Hfacets.
  assert (Hkeys' : facet_keys fs' = Ok fids).
  { rewrite <- Hkeys. unfold facet_keys, read_reqs, read_cv, load, found.
    now rewrite Htop. }
  rewrite !make_global_attrs_schema_eq, Hkeys, Hkeys'. cbn [bind].
  rewrite (for_each_ext (facet_step fs' (prefix_of prefix) enum)
             (facet_step fs (prefix_of prefix) enum)); [reflexivity|].
  intros props fid Hin. unfold facet_step, classify.
  destruct (str_in fid integer_fields) eqn:Eint; [reflexivity|].
  destruct (String.eqb fid "mip_era") eqn:Eera; [reflexivity|].
  unfold read_cv, load, found. rewrite (Hfacets fid Hin); [reflexivity|].
  unfold unread. now rewrite Eint, Eera.
Qed.

Lemma build_reads_required_files_only_witness :
  make_global_attrs_schema cvs_bad_mip_era (Some "ds") false
  = make_global_attrs_schema cvs_example (Some "ds") false.
Proof.
  apply (build_reads_required_files_only cvs_example cvs_bad_mip_era
           (Some "ds") false ["activity_id"; "mip_era"; "realization_index"]
           eq_refl eq_refl).
  intros fid [<- | [<- | [<- | []]]] Hun; try discriminate Hun.
  reflexivity.
Defined.

(** *** create_json_schema *)

Lemma schema_path_is_no_cv_path (key : string) : cv_path key <> schema_path.
Proof. unfold cv_path, schema_path. cbn. discriminate. Qed.

Lemma written_schema_is_not_read (fs : files) (f : file)
  (prefix : option string) (enum : bool) :
  make_global_attrs_schema (write_file fs schema_path f) prefix enum
  = make_global_attrs_schema fs prefix enum.
Proof.
  assert (Hcv : forall key,
            write_file fs schema_path f (cv_path key) = fs (cv_path key)).
  { intros key. unfold write_file.
    destruct (String.eqb (cv_path key) schema_path) eqn:E; [|reflexivity].
    apply String.eqb_eq in E. now apply schema_path_is_no_cv_path in E. }
  assert (Hkeys : facet_keys (write_file fs schema_path f) = facet_keys fs).
  { unfold facet_keys, read_reqs, read_cv, load, found. now rewrite Hcv. }
  rewrite !make_global_attrs_schema_eq, Hkeys.
  destruct (facet_keys fs) as [fids|e]; cbn [bind]; [|reflexivity].
  rewrite (for_each_ext
             (facet_step (write_file fs schema_path f) (prefix_of prefix) enum)
             (facet_step fs (prefix_of prefix) enum)); [reflexivity|].
  intros props fid _. unfold facet_step, classify, read_cv, load, found.
  now rewrite Hcv.
Qed.

Lemma write_file_same (fs : files) (path : string) (f : file) :
  write_file fs path f path = f.
Proof. unfold write_file. now rewrite String.eqb_refl. Qed.

Lemma write_file_other (fs : files) (path : string) (f : file) (p : string) :
  p <> path -> write_file fs path f p = fs p.
Proof.
  intros Hne. unfold write_file. apply String.eqb_neq in Hne. now rewrite Hne.
Qed.

Lemma write_file_twice (fs : files) (path : string) (f : file) (p : string) :
  write_file (write_file fs path f) path f p = write_file fs path f p.
Proof. unfold write_file. now destruct (String.eqb p path). Qed.

Lemma schema_path_accepted : path_refused schema_path = None.
Proof. reflexivity. Qed.

Lemma schema_path_short : name_too_long schema_path = false.
Proof. reflexivity. Qed.



End BuilderEdges.

(** ** More on export_schema.py *)

Module ExportExtras.
Import ExportSchema.

Lemma export_items_total (fid : string) (entries : dict) :
  export_titled fid entries = true ->
  forall acc, exists items, for_each (append_item fid) entries acc = Ok items.
Proof.
  unfold export_titled.
  induction entries as [|[key value] entries IH]; intros Ht acc.
  - now exists acc.
  - cbn [forallb snd] in Ht. apply andb_true_iff in Ht as [Hhead Htail].
    cbn [for_each append_item].
    destruct value; cbn -[table_get]; try apply (IH Htail).
    unfold table_getitem.
    destruct (table_get field fid) as [f|]; [|discriminate].
    cbn -[table_get]. unfold dict_getitem.
    destruct (dict_get d f); [|discriminate].
    cbn -[table_get]. apply (IH Htail).
Qed.

Lemma export_expected_fragment (fid : string) (doc : json) :
  export_expected_cv fid doc ->
  exists f, snd (cv_to_property doc) = Ok [(fid, JDict f)].
Proof.
  intros [cv [vm [payload [-> [Hpop Hshape]]]]].
  unfold cv_to_property. rewrite Hpop.
  cbn [snd length Nat.ltb Nat.leb for_each payload_property].
  destruct payload; try contradiction.
  - now eexists.
  - destruct (export_items_total fid d Hshape []) as [items ->].
    now eexists.
Qed.

(** X12.  [make_drs_schema] has no fallback: when, for one of the eleven
    facets, the CV file is missing or is not JSON, or [cv_to_property]
    raises on its document, [make_drs_schema] raises. *)
Theorem drs_schema_needs_every_facet (fs : files) (fid : string) :
  In fid facets ->
  raises (read_cv fs fid) \/
  (exists cv, read_cv fs fid = Ok cv /\ raises (snd (cv_to_property cv))) ->
  raises (make_drs_schema fs).
Proof.
  intros Hin Hbad. unfold make_drs_schema.
  apply bind_raises, (for_each_raises _ facets fid Hin).
  intros props. unfold drs_step.
  destruct Hbad as [Hread | [cv [-> Hcv]]].
  - now apply bind_raises.
  - cbn [bind]. now apply bind_raises.
Qed.

Lemma drs_schema_needs_every_facet_witness :
  raises (make_drs_schema (directory [])).
Proof.
  apply (drs_schema_needs_every_facet (directory []) "realm").
  - simpl. auto 10.
  - left. eexists. reflexivity.
Defined.

Lemma export_facet_paths_accepted (fid : string) :
  In fid facets ->
  path_refused (cv_path fid) = None /\ name_too_long (cv_path fid) = false.
Proof.
  unfold facets. cbn [In]. intros H.
  repeat (destruct H as [<- | H]; [split; reflexivity|]). destruct H.
Qed.

Lemma drs_loop_keys (fs : files) (fids : list string) :
  (forall fid, In fid fids ->
     exists doc, read_cv fs fid = Ok doc /\ export_expected_cv fid doc) ->
  forall props,
    NoDup fids ->
    (forall fid, In fid fids -> ~ In fid (dict_keys props)) ->
    exists added,
      for_each (drs_step fs) fids props = Ok (props ++ added)%list /\
      dict_keys added = fids.
Proof.
  induction fids as [|fid fids IH]; intros Hall props Hnd Hfresh.
  - exists []. now rewrite app_nil_r.
  - inversion Hnd as [|? ? Hnotin Hnd']; subst.
    destruct (Hall fid (or_introl eq_refl)) as [doc [Hdoc Hshape]].
    destruct (export_expected_fragment fid doc Hshape) as [f Hf].
    destruct (IH (fun x Hx => Hall x (or_intror Hx))
                (props ++ [(fid, JDict f)])%list Hnd') as [added [Hrun Hkeys]].
    { intros x Hx. unfold dict_keys. rewrite map_app, in_app_iff.
      intros [Hin | [<- | []]]; [|contradiction].
      apply (Hfresh x (or_intror Hx) Hin). }
    exists ((fid, JDict f) :: added). split.
    + cbn [for_each]. unfold drs_step at 1.
      rewrite Hdoc. cbn [bind]. rewrite Hf. cbn [bind].
      unfold dict_update. cbn [fold_left fst snd].
      rewrite dict_setitem_fresh by (apply Hfresh; now left).
      rewrite Hrun. now rewrite <- app_assoc.
    + cbn [dict_keys map fst]. f_equal. exact Hkeys.
Qed.

(** X13.  When each of the eleven facets has a CV file holding version
    metadata and the one payload named after the facet, a list or a
    mapping whose sub-mappings all have the display field,
    [make_drs_schema] returns; the properties of its schema are the two
    path properties, unchanged, followed by one property per facet, in
    the order of [facets]. *)
Theorem drs_schema_is_complete (fs : files) :
  (forall fid, In fid facets ->
     exists doc, fs (cv_path fid) = Json doc /\ export_expected_cv fid doc) ->
  exists added,
    make_drs_schema fs = Ok (drs_doc (drs_properties ++ added)%list) /\
    dict_keys added = facets /\
    forall k, In k ("directory_path" :: "filename" :: facets) ->
      schema_property (drs_doc (drs_properties ++ added)%list) k <> None.
Proof.
  intros Hall.
  destruct (drs_loop_keys fs facets) with (props := drs_properties)
    as [added [Hrun Hkeys]].
  - intros fid Hin. destruct (Hall fid Hin) as [doc [Hdoc Hshape]].
    exists doc. split; [|exact Hshape]. unfold read_cv, load.
    destruct (export_facet_paths_accepted fid Hin) as [Hpath Hshort].
    now rewrite Hpath, (BuilderFacts.found_short fs _ Hshort), Hdoc.
  - unfold facets. repeat constructor; simpl; intuition discriminate.
  - intros fid Hin. unfold facets in Hin. simpl in Hin.
    simpl. intuition (subst; discriminate).
  - exists added. unfold make_drs_schema. rewrite Hrun. cbn [bind].
    split; [reflexivity|]. split; [exact Hkeys|].
    intros k Hk. cbn [schema_property drs_doc dict_get].
    cbn -[drs_properties facets]. intros Hnone.
    apply dict_get_None in Hnone. apply Hnone.
    unfold dict_keys. rewrite map_app. fold (dict_keys added).
    rewrite Hkeys, in_app_iff.
    destruct Hk as [<- | [<- | Hk]]; [left; simpl; auto | left; simpl; auto|].
    now right.
Qed.

Lemma drs_schema_is_complete_witness :
  exists added,
    make_drs_schema export_cvs_lists = Ok (drs_doc (drs_properties ++ added)%list) /\
    dict_keys added = facets.
Proof.
  destruct (drs_schema_is_complete export_cvs_lists) as [added [H1 [H2 _]]].
  - intros fid Hin. unfold facets in Hin. simpl in Hin.
    repeat (destruct Hin as [<- | Hin];
            [eexists; split; [reflexivity|];
             eexists; exists version_metadata_example; eexists;
             split; [reflexivity|]; split; [reflexivity | exact I]|]).
    destruct Hin.
  - exists added. auto.
Defined.

(** X14.  The builder of export_schema.py has no fallback either: when
    a required key is one of [facets] and its CV file is missing, the
    build raises, where cv2schema.py gives the facet a string
    property. *)
Theorem export_build_needs_facet_files (fs : files) (elems : list json)
  (fids : list string) (fid : string) :
  export_required_elements fs = Ok elems ->
  str_keys elems = Some fids ->
  In fid fids ->
  str_in fid facets = true ->
  fs (cv_path fid) = Absent ->
  exists e, make_global_attrs_schema fs = Some (Raise e).
Proof.
  unfold export_required_elements, make_global_attrs_schema.
  intros Helems Hkeys Hin Hfacet Habs.
  destruct (read_cv fs "required_global_attributes") as [doc|e];
    [|discriminate].
  cbn [bind] in Helems |- *.
  destruct (getitem doc "required_global_attributes") as [reqs|e];
    [|discriminate].
  cbn [bind] in Helems |- *. rewrite Helems. cbn [bind]. rewrite Hkeys.
  assert (Hloop : raises (for_each (facet_step fs) fids [])).
  { apply (for_each_raises _ fids fid Hin). intros props.
    unfold facet_step, classify. rewrite Hfacet.
    unfold read_cv, load.
    destruct (path_refused (cv_path fid));
      [|rewrite (BuilderFacts.found_absent fs _ Habs)];
      eexists; reflexivity. }
  destruct Hloop as [e ->]. now exists e.
Qed.

Lemma export_build_needs_facet_files_witness :
  exists e,
    make_global_attrs_schema
      (directory
         [("CMIP6_required_global_attributes.json",
           JDict [("required_global_attributes", JList [JStr "realm"])])])
    = Some (Raise e).
Proof.
  apply (export_build_needs_facet_files
           (directory
              [("CMIP6_required_global_attributes.json",
                JDict [("required_global_attributes", JList [JStr "realm"])])])
           [JStr "realm"] ["realm"] "realm"); try reflexivity.
  simpl. auto.
Defined.

End ExportExtras.

(** ** np2py *)

Module Np2pyFacts.
Import Np2py.

Lemma comprehension_Forall2 {A B : Type} (f : A -> result B) (l : list A) :
  forall l', comprehension f l = Ok l' ->
             Forall2 (fun a b => f a = Ok b) l l'.
Proof.
  induction l as [|a l IH]; cbn [comprehension]; intros l' H.
  - injection H as <-. constructor.
  - apply bind_ok in H as [b [Hb H]]. apply bind_ok in H as [bs [Hbs H]].
    injection H as <-. constructor; auto.
Qed.

(** A comprehension returns when every element converts, and raises
    the error of the first element that does not. *)
Lemma comprehension_cases {A B : Type} (f : A -> result B) (ok : A -> bool)
  (l : list A) :
  Forall (fun a => match f a with
                   | Ok _ => ok a = true
                   | Raise e => e = TypeError /\ ok a = false
                   end) l ->
  match comprehension f l with
  | Ok _ => forallb ok l = true
  | Raise e => e = TypeError /\ forallb ok l = false
  end.
Proof.
  induction 1 as [|a l Ha _ IH]; cbn [comprehension forallb]; [reflexivity|].
  destruct (f a) as [b|e]; cbn [bind].
  - rewrite Ha. cbn [andb].
    destruct (comprehension f l) as [bs|e]; cbn [bind]; exact IH.
  - destruct Ha as [-> ->]. auto.
Qed.

Lemma Forall2_Forall {A B : Type} (R : A -> B -> Prop) (P : A -> Prop)
  (Q : B -> Prop) (l : list A) (l' : list B) :
  (forall a b, P a -> R a b -> Q b) ->
  Forall2 R l l' -> Forall P l -> Forall Q l'.
Proof.
  intros Hstep. induction 1 as [|a b l l' Hab _ IH]; intros Hl;
    constructor; inversion Hl; subst; eauto.
Qed.

Lemma Forall2_map {A B C : Type} (R : A -> B -> Prop) (P : A -> Prop)
  (f : A -> C) (g : B -> C) (l : list A) (l' : list B) :
  (forall a b, P a -> R a b -> g b = f a) ->
  Forall2 R l l' -> Forall P l -> map g l' = map f l.
Proof.
  intros Hstep. induction 1 as [|a b l l' Hab _ IH]; intros Hl;
    [reflexivity|]. inversion Hl; subst. cbn [map].
  f_equal; eauto.
Qed.

Section Facts.

Context {K O F NF : Type}.
Variable to_float : NF -> F.

(** Induction over a value and the values inside it. *)
Lemma data_induction (P : data K O F NF -> Prop) :
  (forall kvs, Forall (fun kv => P (snd kv)) kvs -> P (DDict kvs)) ->
  (forall l, Forall P l -> P (DList l)) ->
  (forall l, Forall P l -> P (DTuple l)) ->
  (forall z, P (DNpInt z)) ->
  (forall count, P (DNpTimedelta count)) ->
  (forall x, P (DNpFloat x)) ->
  (forall z, P (DInt z)) ->
  (forall x, P (DFloat x)) ->
  (forall o, P (DOther o)) ->
  forall d, P d.
Proof.
  intros Hdict Hlist Htuple Hnpint Htime Hnpfloat Hint Hfloat Hother.
  fix IH 1. intros [kvs | l | l | z | count | x | z | x | o];
    [| | |apply Hnpint|apply Htime|apply Hnpfloat|apply Hint|apply Hfloat
     |apply Hother].
  - apply Hdict. induction kvs as [|[k v] kvs IHkvs]; constructor;
      [apply IH | exact IHkvs].
  - apply Hlist. induction l as [|d l IHl]; constructor;
      [apply IH | exact IHl].
  - apply Htuple. induction l as [|d l IHl]; constructor;
      [apply IH | exact IHl].
Qed.

Lemma np2py_dict (kvs : list (K * data K O F NF)) :
  np2py to_float (DDict kvs)
  = (kvs' <- comprehension (convert_item to_float) kvs ;; Ok (DDict kvs')).
Proof.
  cbn [np2py]. f_equal.
  induction kvs as [|[k v] kvs IH]; cbn [comprehension]; [reflexivity|].
  rewrite IH. unfold convert_item. cbn [fst snd].
  now destruct (np2py to_float v).
Qed.

Lemma np2py_list (l : list (data K O F NF)) :
  np2py to_float (DList l)
  = (out <- comprehension (np2py to_float) l ;; Ok (DList out)).
Proof.
  cbn [np2py]. f_equal.
  induction l as [|x l IH]; cbn [comprehension]; [reflexivity|].
  now rewrite IH.
Qed.

Lemma np2py_tuple (l : list (data K O F NF)) :
  np2py to_float (DTuple l)
  = (out <- comprehension (np2py to_float) l ;; Ok (DTuple out)).
Proof.
  cbn [np2py]. f_equal.
  induction l as [|x l IH]; cbn [comprehension]; [reflexivity|].
  now rewrite IH.
Qed.

Lemma convert_item_ok (kv kv' : K * data K O F NF) :
  convert_item to_float kv = Ok kv' ->
  fst kv' = fst kv /\ np2py to_float (snd kv) = Ok (snd kv').
Proof.
  unfold convert_item. intros H. apply bind_ok in H as [v' [Hv H]].
  injection H as <-. auto.
Qed.

(** [np2py] returns exactly on the values without a timedelta that
    [int] refuses, and raises [TypeError] on the others. *)
Lemma np2py_cases (d : data K O F NF) :
  match np2py to_float d with
  | Ok _ => convertible d = true
  | Raise e => e = TypeError /\ convertible d = false
  end.
Proof.
  induction d using data_induction; try (cbn; reflexivity).
  - rewrite np2py_dict. cbn [convertible].
    assert (Hc := comprehension_cases (convert_item to_float)
                    (fun kv => convertible (snd kv)) kvs).
    destruct (comprehension (convert_item to_float) kvs); cbn [bind]; apply Hc;
      (eapply Forall_impl; [|exact H]); intros [k v]; unfold convert_item;
      cbn [fst snd]; destruct (np2py to_float v); auto.
  - rewrite np2py_list. cbn [convertible].
    assert (Hc := comprehension_cases (np2py to_float) convertible l H).
    destruct (comprehension (np2py to_float) l); exact Hc.
  - rewrite np2py_tuple. cbn [convertible].
    assert (Hc := comprehension_cases (np2py to_float) convertible l H).
    destruct (comprehension (np2py to_float) l); exact Hc.
  - destruct count; cbn; auto.
Qed.


Lemma comprehension_fixed {A : Type} (f : A -> result A) (l : list A) :
  Forall (fun a => f a = Ok a) l -> comprehension f l = Ok l.
Proof.
  induction 1 as [|a l Ha _ IH]; cbn [comprehension]; [reflexivity|].
  now rewrite Ha, IH.
Qed.


Lemma np2py_fixed (d d' : data K O F NF) :
  np2py to_float d = Ok d' -> np2py to_float d' = Ok d'.
Proof.
  revert d'. induction d using data_induction; intros d' Hd;
    try (cbn [np2py] in Hd; injection Hd as <-; reflexivity).
  - rewrite np2py_dict in Hd. apply bind_ok in Hd as [kvs' [Hkvs Hd]].
    injection Hd as <-. apply comprehension_Forall2 in Hkvs.
    rewrite np2py_dict, comprehension_fixed; [reflexivity|].
    refine (Forall2_Forall _ _ _ _ _ _ Hkvs H).
    intros kv kv' IH Hkv. apply convert_item_ok in Hkv as [_ Hkv].
    unfold convert_item. rewrite (IH _ Hkv). now destruct kv'.
  - rewrite np2py_list in Hd. apply bind_ok in Hd as [out [Hout Hd]].
    injection Hd as <-. apply comprehension_Forall2 in Hout.
    rewrite np2py_list, comprehension_fixed; [reflexivity|].
    refine (Forall2_Forall _ _ _ _ _ _ Hout H). auto.
  - rewrite np2py_tuple in Hd. apply bind_ok in Hd as [out [Hout Hd]].
    injection Hd as <-. apply comprehension_Forall2 in Hout.
    rewrite np2py_tuple, comprehension_fixed; [reflexivity|].
    refine (Forall2_Forall _ _ _ _ _ _ Hout H). auto.
  - destruct count; cbn [np2py] in Hd; [|discriminate].
    now injection Hd as <-.
Qed.

Lemma np2py_size (d d' : data K O F NF) :
  np2py to_float d = Ok d' -> size d' = size d.
Proof.
  revert d'. induction d using data_induction; intros d' Hd;
    try (cbn [np2py] in Hd; injection Hd as <-; reflexivity).
  - rewrite np2py_dict in Hd. apply bind_ok in Hd as [kvs' [Hkvs Hd]].
    injection Hd as <-. apply comprehension_Forall2 in Hkvs.
    cbn [size]. do 2 f_equal.
    refine (Forall2_map _ _ _ _ _ _ _ Hkvs H).
    intros kv kv' IH Hkv. apply convert_item_ok in Hkv as [_ Hkv]. auto.
  - rewrite np2py_list in Hd. apply bind_ok in Hd as [out [Hout Hd]].
    injection Hd as <-. apply comprehension_Forall2 in Hout.
    cbn [size]. do 2 f_equal.
    refine (Forall2_map _ _ _ _ _ _ _ Hout H). auto.
  - rewrite np2py_tuple in Hd. apply bind_ok in Hd as [out [Hout Hd]].
    injection Hd as <-. apply comprehension_Forall2 in Hout.
    cbn [size]. do 2 f_equal.
    refine (Forall2_map _ _ _ _ _ _ _ Hout H). auto.
  - destruct count; cbn [np2py] in Hd; [|discriminate].
    now injection Hd as <-.
Qed.


End Facts.



(** A timedelta of seconds inside a tuple makes the whole conversion
    raise. *)
Example np2py_timedelta_raises :
  np2py (fun x : Z => x) attrs_timedelta = Raise TypeError /\
  convertible attrs_timedelta = false.
Proof. split; reflexivity. Qed.

End Np2pyFacts.

(** ** From the round of a facet to the schema *)

Module BuilderEndToEnd.
Import Cv2schema BuilderFacts.

(** When the round of a read facet always sets the key of the facet to
    the same value, and no document read for another facet has a key
    named after it, that value is the property of the facet in the
    schema. *)
Lemma round_decides_property (fs : files) (prefix : option string)
  (enum : bool) (schema : json) (fids : list string) (fid : string)
  (v : json) :
  facet_keys fs = Ok fids ->
  In fid fids ->
  unread fid = false ->
  (forall props,
     facet_step fs (prefix_of prefix) enum props fid
     = Ok (dict_setitem props (prefix_of prefix ++ fid) v)) ->
  (forall fid' cv, In fid' fids -> fid' <> fid -> unread fid' = false ->
     read_cv fs fid' = Ok (JDict cv) -> ~ In fid (dict_keys cv)) ->
  make_global_attrs_schema fs prefix enum = Ok schema ->
  schema_property schema (prefix_of prefix ++ fid) = Some v.
Proof.
  intros Hkeys Hin Hun Hround Hcvs Hmake.
  destruct (schema_built fs prefix enum schema Hmake)
    as [fids' [props [Hkeys' [Hloop [_ Hprop]]]]].
  rewrite Hkeys in Hkeys'. injection Hkeys' as <-.
  rewrite Hprop.
  destruct (BuilderExtras.unread_false fid Hun) as [_ Hera].
  apply String.eqb_neq in Hera.
  apply (for_each_last_writer (facet_step fs (prefix_of prefix) enum)
           (fun props => dict_get props (prefix_of prefix ++ fid))
           (fun o => o = Some v) (fun _ => True) fids fid Hin) with (s := []);
    auto using string_dec.
  - intros s s' _ Hstep. rewrite Hround in Hstep.
    injection Hstep as <-. apply dict_get_setitem_eq.
  - intros s b s' Hb Hne _ Hstep.
    apply (facet_step_get fs (prefix_of prefix) enum s s' b _ Hstep).
    + intros H. now apply append_inv_head in H.
    + intros _. now apply prefixed_neq_mip_era.
    + intros cv x Hunb Hread Hx H. apply append_inv_head in H. subst x.
      now apply (Hcvs b cv).
Qed.

(** C8.  Take a required facet, neither an index facet nor [mip_era],
    whose CV file parses to a document without [version_metadata], or to
    a mapping-shaped document with a sub-mapping entry and a payload key
    outside the display-field table.  [cv_to_property] raises [KeyError]
    on it; [make_global_attrs_schema] catches it: the handler sets the
    property of the facet to the fragment of type [string], the round of
    the facet returns with that fragment (with the format added where
    the facet has one), an exception of the build is always the
    exception of the round of another required facet, and the build
    returns a schema when the rounds of the other required facets
    return.  In the schema the build returns, the property of the facet
    is that fragment, provided no document read for another required
    facet has a key named after the facet. *)
Theorem key_errors_degrade_to_string (fs : files) (prefix : option string)
  (enum : bool) (fids : list string) (fid : string) (cv : dict) :
  facet_keys fs = Ok fids ->
  In fid fids ->
  unread fid = false ->
  read_cv fs fid = Ok (JDict cv) ->
  key_error_cv cv ->
  let degraded :=
    JDict (match table_get formats fid with
           | None => [("type", JStr "string")]
           | Some fmt => [("type", JStr "string"); ("format", JStr fmt)]
           end) in
  (exists k, snd (cv_to_property (JDict cv) enum) = Raise (KeyError k)) /\
  (forall props,
     classify fs (prefix_of prefix) enum props fid
     = Ok (dict_setitem props (prefix_of prefix ++ fid) string_fragment)) /\
  (forall props,
     facet_step fs (prefix_of prefix) enum props fid
     = Ok (dict_setitem props (prefix_of prefix ++ fid) degraded)) /\
  (forall e,
     make_global_attrs_schema fs prefix enum = Raise e ->
     exists fid' props,
       In fid' fids /\ fid' <> fid /\
       facet_step fs (prefix_of prefix) enum props fid' = Raise e) /\
  ((forall fid' props, In fid' fids -> fid' <> fid ->
      exists props', facet_step fs (prefix_of prefix) enum props fid'
                     = Ok props') ->
   exists schema, make_global_attrs_schema fs prefix enum = Ok schema) /\
  forall schema,
    make_global_attrs_schema fs prefix enum = Ok schema ->
    (forall fid' cv', In fid' fids -> fid' <> fid -> unread fid' = false ->
       read_cv fs fid' = Ok (JDict cv') -> ~ In fid (dict_keys cv')) ->
    schema_property schema (prefix_of prefix ++ fid) = Some degraded.
Proof.
  intros Hkeys Hin Hun Hread Hcv degraded.
  destruct (Builder.key_error_raised cv enum Hcv) as [k Hk].
  assert (Hhandler : forall props,
            classify fs (prefix_of prefix) enum props fid
            = Ok (dict_setitem props (prefix_of prefix ++ fid)
                    string_fragment)).
  { intros props. destruct (BuilderExtras.unread_false fid Hun) as [Hint Hera].
    unfold classify. rewrite Hint, Hera, Hread. cbn [bind].
    now rewrite Hk. }
  assert (Hround : forall props,
            facet_step fs (prefix_of prefix) enum props fid
            = Ok (dict_setitem props (prefix_of prefix ++ fid) degraded)).
  { intros props. unfold facet_step. rewrite Hhandler. cbn [bind].
    unfold string_fragment.
    rewrite (BuilderExtras.overlay_after_write (prefix_of prefix) props fid
               [("type", JStr "string")]).
    unfold degraded. now destruct (table_get formats fid). }
  assert (Horigin : forall e,
            make_global_attrs_schema fs prefix enum = Raise e ->
            exists fid' props,
              In fid' fids /\ fid' <> fid /\
              facet_step fs (prefix_of prefix) enum props fid' = Raise e).
  { intros e. rewrite make_global_attrs_schema_eq, Hkeys. cbn [bind].
    destruct (for_each (facet_step fs (prefix_of prefix) enum) fids [])
      as [props|e'] eqn:Hloop; cbn [bind]; [discriminate|].
    intros [= ->].
    destruct (for_each_raise_origin _ fids e [] Hloop)
      as [fid' [props [Hin' Hraise]]].
    exists fid', props. repeat split; auto.
    intros ->. rewrite Hround in Hraise. discriminate. }
  split; [now exists k|]. split; [exact Hhandler|].
  split; [exact Hround|]. split; [exact Horigin|].
  split.
  - intros Hothers.
    destruct (make_global_attrs_schema fs prefix enum) as [schema|e] eqn:Hmake;
      [now exists schema|].
    destruct (Horigin e eq_refl) as [fid' [props [Hin' [Hne Hraise]]]].
    destruct (Hothers fid' props Hin' Hne) as [props' Hok]. congruence.
  - intros schema Hmake Hcvs.
    exact (round_decides_property fs prefix enum schema fids fid degraded
             Hkeys Hin Hun Hround Hcvs Hmake).
Qed.

Lemma key_errors_degrade_to_string_witness :
  exists schema,
    make_global_attrs_schema cvs_key_errors (Some "ds") false = Ok schema /\
    schema_property schema "ds:frequency" = Some string_fragment /\
    schema_property schema "ds:institution_id" = Some string_fragment.
Proof.
  assert (Hfrequency : key_error_cv cv_no_version_metadata).
  { now apply no_version_metadata. }
  assert (Hinstitution : key_error_cv cv_institution_id).
  { apply (no_display_field cv_institution_id "institution_id"
             [ ("NCAR", JDict [("name", JStr "National Center for Atmospheric Research")]) ]);
      try reflexivity.
    exists version_metadata_example. reflexivity. }
  eexists. split; [reflexivity|]. split.
  - refine (proj2 (proj2 (proj2 (proj2 (proj2
              (key_errors_degrade_to_string cvs_key_errors (Some "ds") false
                 ["frequency"; "institution_id"; "realization_index"]
                 "frequency" cv_no_version_metadata
                 eq_refl _ eq_refl eq_refl Hfrequency))))) _ eq_refl _).
    + simpl. auto.
    + intros fid' cv' [<- | [<- | [<- | []]]] Hne Hun';
        try discriminate Hun'; [now elim Hne|].
      intros [= <-]. simpl. intuition discriminate.
  - refine (proj2 (proj2 (proj2 (proj2 (proj2
              (key_errors_degrade_to_string cvs_key_errors (Some "ds") false
                 ["frequency"; "institution_id"; "realization_index"]
                 "institution_id" cv_institution_id
                 eq_refl _ eq_refl eq_refl Hinstitution))))) _ eq_refl _).
    + simpl. auto.
    + intros fid' cv' [<- | [<- | [<- | []]]] Hne Hun';
        try discriminate Hun'; [|now elim Hne].
      intros [= <-]. simpl. intuition discriminate.
Defined.

(** X18.  End to end for a facet with a CV: when the document of a
    required facet, neither an index facet nor [mip_era], makes
    [cv_to_property] return one fragment keyed by the facet, and no
    document read for another required facet has a key of that name,
    the property of the facet in the built schema is that fragment, with
    the format added when the facet has one. *)
Theorem cv_fragment_reaches_the_schema (fs : files) (prefix : option string)
  (enum : bool) (schema : json) (fids : list string) (fid : string)
  (doc : json) (f : dict) :
  facet_keys fs = Ok fids ->
  In fid fids ->
  unread fid = false ->
  read_cv fs fid = Ok doc ->
  snd (cv_to_property doc enum) = Ok [(fid, JDict f)] ->
  (forall fid' cv, In fid' fids -> fid' <> fid -> unread fid' = false ->
     read_cv fs fid' = Ok (JDict cv) -> ~ In fid (dict_keys cv)) ->
  make_global_attrs_schema fs prefix enum = Ok schema ->
  schema_property schema (prefix_of prefix ++ fid)
  = Some (JDict (match table_get formats fid with
                 | None => f
                 | Some fmt => dict_setitem f "format" (JStr fmt)
                 end)).
Proof.
  intros Hkeys Hin Hun Hread Hfrag Hcvs Hmake.
  apply (round_decides_property fs prefix enum schema fids fid _
           Hkeys Hin Hun); [|exact Hcvs|exact Hmake].
  intros props. destruct (BuilderExtras.unread_false fid Hun) as [Hint Hera].
  unfold facet_step, classify. rewrite Hint, Hera, Hread. cbn [bind].
  rewrite Hfrag. cbn [bind try_except fold_left fst snd].
  apply BuilderExtras.overlay_after_write.
Qed.

Lemma cv_fragment_reaches_the_schema_witness :
  exists schema,
    make_global_attrs_schema cvs_example (Some "ds") false = Ok schema /\
    schema_property schema "ds:activity_id"
    = Some (JDict [("oneOf", JList [JDict [("const", JStr "CMIP");
                                           ("title", JStr "CMIP DECK")]])]).
Proof.
  eexists. split; [reflexivity|].
  refine (cv_fragment_reaches_the_schema cvs_example (Some "ds") false _
            ["activity_id"; "mip_era"; "realization_index"] "activity_id"
            _ _ eq_refl _ eq_refl eq_refl eq_refl _ eq_refl).
  - simpl. auto.
  - intros fid' cv [<- | [<- | [<- | []]]] Hne Hun; try discriminate Hun.
    congruence.
Defined.

(** X19.  End to end for a facet without CV file: when the file of a
    required facet, neither an index facet nor [mip_era], does not exist
    and no document read for another required facet has a key of that
    name, the property of the facet in the built schema is the fragment
    of type [string], with the format added when the facet has one. *)
Theorem absent_file_reaches_the_schema (fs : files) (prefix : option string)
  (enum : bool) (schema : json) (fids : list string) (fid : string) :
  facet_keys fs = Ok fids ->
  In fid fids ->
  unread fid = false ->
  fs (cv_path fid) = Absent ->
  (forall fid' cv, In fid' fids -> fid' <> fid -> unread fid' = false ->
     read_cv fs fid' = Ok (JDict cv) -> ~ In fid (dict_keys cv)) ->
  make_global_attrs_schema fs prefix enum = Ok schema ->
  schema_property schema (prefix_of prefix ++ fid)
  = Some (JDict (match table_get formats fid with
                 | None => [("type", JStr "string")]
                 | Some fmt => [("type", JStr "string"); ("format", JStr fmt)]
                 end)).
Proof.
  intros Hkeys Hin Hun Habs Hcvs Hmake.
  destruct (path_refused (cv_path fid)) as [e|] eqn:Hpath.
  { exfalso.
    assert (Hraise : raises (make_global_attrs_schema fs prefix enum)).
    { rewrite make_global_attrs_schema_eq, Hkeys. cbn [bind].
      apply bind_raises, (for_each_raises _ fids fid Hin).
      intros props. exists e. now apply BuilderExtras.refused_round. }
    destruct Hraise as [e' He']. congruence. }
  apply (round_decides_property fs prefix enum schema fids fid _
           Hkeys Hin Hun); [|exact Hcvs|exact Hmake].
  intros props. destruct (BuilderExtras.unread_false fid Hun) as [Hint Hera].
  unfold facet_step, classify. rewrite Hint, Hera.
  rewrite (BuilderExtras.read_cv_absent fs fid Hpath Habs).
  cbn [bind try_except is_not_found_or_key_error].
  rewrite BuilderExtras.overlay_after_write.
  now destruct (table_get formats fid).
Qed.

Lemma absent_file_reaches_the_schema_witness :
  exists schema,
    make_global_attrs_schema cvs_creation_date None true = Ok schema /\
    schema_property schema "creation_date"
    = Some (JDict [("type", JStr "string"); ("format", JStr "date-time")]).
Proof.
  eexists. split; [reflexivity|].
  refine (absent_file_reaches_the_schema cvs_creation_date None true _
            ["activity_id"; "creation_date"] "creation_date"
            eq_refl _ eq_refl eq_refl _ eq_refl).
  - simpl. auto.
  - intros fid' cv [<- | [<- | []]] Hne Hun; [|congruence].
    vm_compute. intros H. injection H as <-. simpl. intuition discriminate.
Defined.

End BuilderEndToEnd.
